(** * Health Evaluation API: the record storage layer of [api/main.py]

    A shallow embedding of the storage functions of [api/main.py]
    ([sanitize_filename], [get_eval_filename], [list_evaluations],
    [get_evaluation], [save_evaluation], [delete_evaluation]) and the
    properties of the storage layer stated over them.

    Conventions of the embedding.
    - A Python [str] is a sequence of Unicode code points: [list N].
    - [str.lower] and [str.isspace] are exact on ASCII; what they do on
      text that contains code points from 128 on is a table of the
      interpreter, taken as a parameter (class [Unicode]).
    - An [int] is a [Z].
    - The data directory is a finite map from file names to files; a file
      is known by what [json.load] makes of it. *)

From Stdlib Require Import ZArith NArith List Ascii String Decimal DecimalZ.
From Stdlib Require Import Sorting.Sorted Permutation Lia.
From stdpp Require Import base option list sorting gmap.

Set Default Proof Using "Type".

(** ** Python strings *)

Abbreviation str := (list N).

(** A literal of the source, given by its ASCII text. *)
Definition lit (s : string) : str := map N_of_ascii (list_ascii_of_string s).
Arguments lit s%_string.

Module Chr.
Definition hyphen : N := 45.
Definition underscore : N := 95.
Definition slash : N := 47.
Definition nul : N := 0.

Definition is_ascii (c : N) : bool := (c <? 128)%N.

(** [A-Z] goes to [a-z]; every other ASCII code point is its own lower
    case. *)
Definition ascii_lower (c : N) : N :=
  if ((65 <=? c) && (c <=? 90))%N then (c + 32)%N else c.

(** The ASCII code points for which [str.isspace] holds: TAB, LF, VT,
    FF, CR, the four separators FS, GS, RS, US, and the space. *)
Definition ascii_isspace (c : N) : bool :=
  (((9 <=? c) && (c <=? 13)) || ((28 <=? c) && (c <=? 31)) || (c =? 32))%N.

(** The ASCII letters and digits. *)
Definition is_alnum (c : N) : bool :=
  (((48 <=? c) && (c <=? 57)) || ((65 <=? c) && (c <=? 90))
   || ((97 <=? c) && (c <=? 122)))%N.

(** The class [[a-z0-9\-_]] of the regular expression in
    [sanitize_filename]. *)
Definition is_safe (c : N) : bool :=
  (((97 <=? c) && (c <=? 122)) || ((48 <=? c) && (c <=? 57))
   || (c =? hyphen) || (c =? underscore))%N.
End Chr.

(** The part of the interpreter's Unicode database the code reaches through
    [str.lower] and [str.strip]: the lower-casing of a text that has a
    code point outside ASCII (which may change its length and depends on
    context), and the white-space property outside ASCII. *)
Class Unicode := {
  unicode_lower : str → str;
  unicode_isspace : N → bool
}.

Section PyStr.
Context `{Unicode}.

(** [s.lower()] *)
Definition py_lower (s : str) : str :=
  if forallb Chr.is_ascii s then map Chr.ascii_lower s else unicode_lower s.

Definition py_isspace (c : N) : bool :=
  if Chr.is_ascii c then Chr.ascii_isspace c else unicode_isspace c.

Fixpoint py_lstrip (s : str) : str :=
  match s with
  | [] => []
  | c :: s' => if py_isspace c then py_lstrip s' else s
  end.

Fixpoint py_rstrip (s : str) : str :=
  match s with
  | [] => []
  | c :: s' =>
      match py_rstrip s' with
      | [] => if py_isspace c then [] else [c]
      | r => c :: r
      end
  end.

(** [s.strip()] *)
Definition py_strip (s : str) : str := py_rstrip (py_lstrip s).
End PyStr.

(** [re.sub(r'[^a-z0-9\-_]', '-', s)]: every code point outside the class
    becomes a hyphen. *)
Definition sub_unsafe (s : str) : str :=
  map (λ c, if Chr.is_safe c then c else Chr.hyphen) s.

(** [re.sub(r'-+', '-', s)]: every maximal run of hyphens becomes one
    hyphen; a hyphen followed by a hyphen is dropped. *)
Fixpoint sub_hyphens (s : str) : str :=
  match s with
  | [] => []
  | c :: s' =>
      match s' with
      | d :: _ =>
          if ((c =? Chr.hyphen) && (d =? Chr.hyphen))%N
          then sub_hyphens s' else c :: sub_hyphens s'
      | [] => [c]
      end
  end.

(** [s or d] for an optional string: [None] and the empty string are
    falsy. *)
Definition str_or (s : option str) (d : str) : str :=
  match s with
  | Some (c :: s') => c :: s'
  | _ => d
  end.

(** [str(z)] and the [{z}] of an f-string, for an [int]. *)
Fixpoint uint_str (d : Decimal.uint) : str :=
  match d with
  | Nil => []
  | D0 d => 48%N :: uint_str d
  | D1 d => 49%N :: uint_str d
  | D2 d => 50%N :: uint_str d
  | D3 d => 51%N :: uint_str d
  | D4 d => 52%N :: uint_str d
  | D5 d => 53%N :: uint_str d
  | D6 d => 54%N :: uint_str d
  | D7 d => 55%N :: uint_str d
  | D8 d => 56%N :: uint_str d
  | D9 d => 57%N :: uint_str d
  end.

Definition int_str (z : Z) : str :=
  match Z.to_int z with
  | Pos d => uint_str d
  | Neg d => Chr.hyphen :: uint_str d
  end.

(** Comparison of strings, code point by code point, as [<] on [str]. *)
Fixpoint str_ltb (s t : str) : bool :=
  match s, t with
  | _, [] => false
  | [], _ :: _ => true
  | c :: s', d :: t' => ((c <? d) || ((c =? d) && str_ltb s' t'))%N
  end.

(** ** [api/main.py]: file names *)

Section FileNames.
Context `{Unicode}.

Definition sanitize_filename (name : str) : str :=
  let name := py_strip (py_lower name) in
  let name := sub_unsafe name in
  let name := sub_hyphens name in
  take 50 name.

(** The local [name_part] of [get_eval_filename]. *)
Definition name_part (name : option str) : str :=
  sanitize_filename (str_or name (lit "unnamed")).

(** The local [sex_part] of [get_eval_filename]: index 0 of
    [sex or "unknown"], lower-cased.  The string indexed is never empty
    (lemma [str_or_nonempty]), so the [IndexError] branch is dead. *)
Definition sex_part (sex : option str) : str :=
  match str_or sex (lit "unknown") with
  | c :: _ => py_lower [c]
  | [] => []
  end.

Definition get_eval_filename (name : option str) (age : Z) (sex : option str)
  : str :=
  name_part name ++ lit "_" ++ int_str age ++ lit "_" ++ sex_part sex
    ++ lit ".json".
End FileNames.

(** No hyphen is followed by a hyphen. *)
Fixpoint no_hyphen_run (s : str) : Prop :=
  match s with
  | [] => True
  | c :: s' =>
      match s' with
      | d :: _ => ¬ (c = Chr.hyphen ∧ d = Chr.hyphen) ∧ no_hyphen_run s'
      | [] => True
      end
  end.

(** Tables that are never consulted on ASCII text; they serve to run the
    code on ASCII inputs. *)
Definition ascii_only : Unicode :=
  {| unicode_lower := λ s, s; unicode_isspace := λ _, false |}.



(** ** JSON documents

    What [json.load] returns and [json.dump] takes.  A float is kept as
    its literal: nothing in the storage layer computes with one. *)

#[warnings="-register-all"]
Inductive json :=
| JNull
| JBool (b : bool)
| JInt (z : Z)
| JFloat (repr : str)
| JStr (s : str)
| JList (l : list json)
| JDict (d : gmap str json).

(** [d.get(key, default)] *)
Definition dict_get (d : gmap str json) (key : str) (default : json) : json :=
  match d !! key with
  | Some v => v
  | None => default
  end.

(** [len(v)]: defined on strings, lists and dicts; [None] stands for the
    [TypeError] raised on the other values. *)
Definition py_len (v : json) : option nat :=
  match v with
  | JStr s => Some (length s)
  | JList l => Some (length l)
  | JDict d => Some (size d)
  | _ => None
  end.

(** ** Field validation of the models

    A [str] field takes a string and refuses [None]; an [Optional] field
    takes [None] and a value of its type.  What the validators do with a
    value of another type (a number for a [str] field, a string for an
    [int] field) differs between versions of pydantic; it is taken as a
    parameter.  [None] stands for the [ValidationError]. *)
Class Pydantic := {
  coerce_str : json → option str;
  coerce_int : json → option Z
}.

Section Validators.
Context `{Pydantic}.

Definition validate_str (v : json) : option str :=
  match v with
  | JStr s => Some s
  | JNull => None
  | _ => coerce_str v
  end.

Definition validate_optional_str (v : json) : option (option str) :=
  match v with
  | JNull => Some None
  | JStr s => Some (Some s)
  | _ => Some <$> coerce_str v
  end.

Definition validate_optional_int (v : json) : option (option Z) :=
  match v with
  | JNull => Some None
  | JInt z => Some (Some z)
  | _ => Some <$> coerce_int v
  end.
End Validators.

(** A validator that refuses every value of another type; it is never
    consulted on documents whose fields have the types of the model. *)
Definition no_coercion : Pydantic :=
  {| coerce_str := λ _, None; coerce_int := λ _, None |}.

(** ** The models of [api/main.py] *)

Module Evaluation.
Record t := {
  id : str;
  created_at : str;
  updated_at : str;
  person_name : option str;
  person_age : option Z;
  person_sex : option str;
  measurements : gmap str json;
  notes : option str
}.

Definition opt_str (s : option str) : json :=
  match s with Some s => JStr s | None => JNull end.

Definition opt_int (z : option Z) : json :=
  match z with Some z => JInt z | None => JNull end.

(** [evaluation.dict()] *)
Definition dict (e : t) : gmap str json :=
  <[lit "id" := JStr (id e)]>
  (<[lit "created_at" := JStr (created_at e)]>
  (<[lit "updated_at" := JStr (updated_at e)]>
  (<[lit "person_name" := opt_str (person_name e)]>
  (<[lit "person_age" := opt_int (person_age e)]>
  (<[lit "person_sex" := opt_str (person_sex e)]>
  (<[lit "measurements" := JDict (measurements e)]>
  (<[lit "notes" := opt_str (notes e)]> ∅))))))).
End Evaluation.

Module EvaluationSummary.
Record t := {
  filename : str;
  name : str;
  age : option Z;
  sex : option str;
  measurement_count : nat;
  updated_at : str
}.
End EvaluationSummary.

(** ** The data directory

    [DATA_DIR] holds plain files only: nothing in the program makes a
    subdirectory.  A file is known by what reading it gives. *)

Inductive file :=
| Corrupt            (* [open] or [json.load] raises *)
| Json (data : json) (* [json.load] returns [data] *).

(** The state used by the handlers that address one file by its name. *)
Abbreviation store := (gmap str file).

(** The state as the listing sees it: the entries of the directory in the
    order in which the operating system enumerates them. *)
Abbreviation directory := (list (str * file)).

(** Every enumeration of a store is a rearrangement of its entries. *)
Definition enumerates (dir : directory) (st : store) : Prop :=
  dir ≡ₚ map_to_list st.

(** The outcome of a handler. *)
Inductive response (A : Type) :=
| Ok (a : A)
| HTTPException (status_code : Z) (detail : str)
| Unhandled. (* an exception that is no [HTTPException] leaves the handler *)
Arguments Ok {A} a.
Arguments HTTPException {A} status_code detail.
Arguments Unhandled {A}.

(** [s.endswith(suffix)] *)
Definition endswith (s suffix : str) : bool :=
  bool_decide (drop (length s - length suffix) s = suffix).

(** [DATA_DIR.glob("*.json")]: the entries whose name ends in [.json]. *)
Definition glob_json (dir : directory) : directory :=
  List.filter (λ entry, endswith entry.1 (lit ".json")) dir.

(** [name.rfind('.')] *)
Fixpoint rfind_dot (name : str) : option nat :=
  match name with
  | [] => None
  | c :: name' =>
      match rfind_dot name' with
      | Some i => Some (S i)
      | None => if (c =? 46)%N then Some 0 else None
      end
  end.

(** [Path.stem]: the name up to its last dot, when that dot is neither the
    first nor the last code point of the name. *)
Definition stem (name : str) : str :=
  match rfind_dot name with
  | Some i => if (0 <? i) && (i <? length name - 1) then take i name else name
  | None => name
  end.

(** [name] lies in [DATA_DIR] itself and can be opened for writing: it has
    no path separator and no NUL. *)
Definition plain_name (name : str) : bool :=
  forallb (λ c, negb ((c =? Chr.slash) || (c =? Chr.nul))%N) name.


(** ** The handlers of [api/main.py] *)

Module SaveResult.
Record t := { status : str; filename : str }.
End SaveResult.

Section Handlers.
Context `{Unicode} `{Pydantic}.

(** The body of the [try] in [list_evaluations] for one file: [None] when
    an exception is raised, by [open] or [json.load], by [data.get] on a
    document that is no object, by [len] or by the validation of a field
    of [EvaluationSummary]. *)
Definition summary (file_stem : str) (f : file) : option EvaluationSummary.t :=
  match f with
  | Corrupt => None
  | Json (JDict data) =>
      name ← validate_str (dict_get data (lit "person_name") (JStr (lit "Unnamed")));
      age ← validate_optional_int (dict_get data (lit "person_age") JNull);
      sex ← validate_optional_str (dict_get data (lit "person_sex") JNull);
      measurement_count ← py_len (dict_get data (lit "measurements") (JDict ∅));
      updated_at ← validate_str (dict_get data (lit "updated_at") (JStr []));
      Some {| EvaluationSummary.filename := file_stem;
              EvaluationSummary.name := name;
              EvaluationSummary.age := age;
              EvaluationSummary.sex := sex;
              EvaluationSummary.measurement_count := measurement_count;
              EvaluationSummary.updated_at := updated_at |}
  | Json _ => None
  end.

(** The [for] loop of [list_evaluations]: a summary is appended for each
    file whose [try] body completes; the others are passed over. *)
Fixpoint scan (files : directory) (evaluations : list EvaluationSummary.t)
  : list EvaluationSummary.t :=
  match files with
  | [] => evaluations
  | (name, f) :: files' =>
      match summary (stem name) f with
      | Some s => scan files' (evaluations ++ [s])
      | None => scan files' evaluations
      end
  end.

(** [evaluations.sort(key=lambda x: x.updated_at, reverse=True)]: the
    sort is stable, also when reversed, so summaries with equal keys stay
    in the order they have.  [insert_desc x l] puts [x] in front of the
    first summary of [l] whose key does not exceed the key of [x]. *)
Fixpoint insert_desc (x : EvaluationSummary.t) (l : list EvaluationSummary.t)
  : list EvaluationSummary.t :=
  match l with
  | [] => [x]
  | y :: l' =>
      if str_ltb (EvaluationSummary.updated_at x) (EvaluationSummary.updated_at y)
      then y :: insert_desc x l'
      else x :: l
  end.

Definition sort_updated_at_desc (l : list EvaluationSummary.t)
  : list EvaluationSummary.t :=
  foldr insert_desc [] l.

Definition list_evaluations (dir : directory)
  : response (list EvaluationSummary.t) :=
  let evaluations := scan (glob_json dir) [] in
  Ok (sort_updated_at_desc evaluations).

Definition get_evaluation (st : store) (filename : str) : response json :=
  let filepath := sanitize_filename filename ++ lit ".json" in
  match st !! filepath with
  | None => HTTPException 404 (lit "Evaluation not found")
  | Some Corrupt => Unhandled
  | Some (Json data) => Ok data
  end.

(** What [save_evaluation] writes: the record as a dict, with [updated_at]
    set to the time of the write.  [utcnow] is the text of
    [datetime.utcnow().isoformat()]. *)
Definition written (utcnow : str) (evaluation : Evaluation.t) : gmap str json :=
  <[lit "updated_at" := JStr (utcnow ++ lit "Z")]> (Evaluation.dict evaluation).

Definition save_evaluation (st : store) (utcnow : str)
    (evaluation : Evaluation.t) : response SaveResult.t * store :=
  match Evaluation.person_age evaluation with
  | None | Some 0%Z => (HTTPException 400 (lit "Age is required"), st)
  | Some person_age =>
      let filename :=
        get_eval_filename (Evaluation.person_name evaluation) person_age
          (Evaluation.person_sex evaluation) in
      let data := written utcnow evaluation in
      if plain_name filename
      then (Ok {| SaveResult.status := lit "saved";
                  SaveResult.filename := filename |},
            <[filename := Json (JDict data)]> st)
      else (Unhandled, st)
  end.

Definition delete_evaluation (st : store) (filename : str)
  : response str * store :=
  let filepath := sanitize_filename filename ++ lit ".json" in
  match st !! filepath with
  | None => (HTTPException 404 (lit "Evaluation not found"), st)
  | Some _ => (Ok (lit "deleted"), delete filepath st)
  end.
End Handlers.

(** The summaries in [l] are in descending order of [updated_at]: no
    summary has a key below the key of a later one. *)
Definition descending (l : list EvaluationSummary.t) : Prop :=
  StronglySorted
    (λ a b, str_ltb (EvaluationSummary.updated_at a)
                    (EvaluationSummary.updated_at b) = false) l.


(** ** Sample data for runs of the code *)

Module Sample.
Definition jane : Evaluation.t :=
  {| Evaluation.id := lit "id-1";
     Evaluation.created_at := lit "2024-01-01T00:00:00Z";
     Evaluation.updated_at := lit "2024-01-01T00:00:00Z";
     Evaluation.person_name := Some (lit "Jane Doe");
     Evaluation.person_age := Some 30%Z;
     Evaluation.person_sex := Some (lit "F");
     Evaluation.measurements := {[ lit "weight" := JInt 70 ]};
     Evaluation.notes := None |}.

(** The same person under another [id], with other content. *)
Definition jane_again : Evaluation.t :=
  {| Evaluation.id := lit "id-2";
     Evaluation.created_at := lit "2024-02-02T00:00:00Z";
     Evaluation.updated_at := lit "2024-02-02T00:00:00Z";
     Evaluation.person_name := Some (lit "Jane Doe");
     Evaluation.person_age := Some 30%Z;
     Evaluation.person_sex := Some (lit "F");
     Evaluation.measurements := ∅;
     Evaluation.notes := Some (lit "second") |}.

(** A record without a name. *)
Definition nameless : Evaluation.t :=
  {| Evaluation.id := lit "id-3";
     Evaluation.created_at := lit "2024-03-03T00:00:00Z";
     Evaluation.updated_at := lit "2024-03-03T00:00:00Z";
     Evaluation.person_name := None;
     Evaluation.person_age := Some 41%Z;
     Evaluation.person_sex := Some (lit "M");
     Evaluation.measurements := ∅;
     Evaluation.notes := None |}.

(** A record with the age zero. *)
Definition ageless : Evaluation.t :=
  {| Evaluation.id := lit "id-4";
     Evaluation.created_at := lit "2024-04-04T00:00:00Z";
     Evaluation.updated_at := lit "2024-04-04T00:00:00Z";
     Evaluation.person_name := Some (lit "Baby");
     Evaluation.person_age := Some 0%Z;
     Evaluation.person_sex := Some (lit "F");
     Evaluation.measurements := ∅;
     Evaluation.notes := None |}.

(** A record whose name has 50 letters. *)
Definition long_name : Evaluation.t :=
  {| Evaluation.id := lit "id-5";
     Evaluation.created_at := lit "2024-05-05T00:00:00Z";
     Evaluation.updated_at := lit "2024-05-05T00:00:00Z";
     Evaluation.person_name := Some (repeat 97%N 50);
     Evaluation.person_age := Some 30%Z;
     Evaluation.person_sex := Some (lit "F");
     Evaluation.measurements := ∅;
     Evaluation.notes := None |}.

(** A document with a name and, when [updated_at] is given, that key. *)
Definition doc (name : str) (updated_at : option str) : file :=
  let d : gmap str json := {[ lit "person_name" := JStr name ]} in
  Json (JDict match updated_at with
              | Some u => <[lit "updated_at" := JStr u]> d
              | None => d
              end).

Definition row (file_stem name updated_at : str) : EvaluationSummary.t :=
  {| EvaluationSummary.filename := file_stem;
     EvaluationSummary.name := name;
     EvaluationSummary.age := None;
     EvaluationSummary.sex := None;
     EvaluationSummary.measurement_count := 0;
     EvaluationSummary.updated_at := updated_at |}.

(** Three records, of January, of June and without [updated_at], next to
    a file that does not parse and a file that is no [.json]. *)
Definition dir : directory :=
  [ (lit "jan_30_f.json", doc (lit "Jan") (Some (lit "2024-01-01T00:00:00Z")));
    (lit "broken.json", Corrupt);
    (lit "june_31_f.json", doc (lit "June") (Some (lit "2024-06-01T00:00:00Z")));
    (lit "old_80_m.json", doc (lit "Old") None);
    (lit "readme.txt", Corrupt) ].

Definition january := row (lit "jan_30_f") (lit "Jan") (lit "2024-01-01T00:00:00Z").
Definition june := row (lit "june_31_f") (lit "June") (lit "2024-06-01T00:00:00Z").
Definition undated := row (lit "old_80_m") (lit "Old") [].

(** The summary of [jane] written at ten o'clock. *)
Definition jane_row : EvaluationSummary.t :=
  {| EvaluationSummary.filename := lit "jane-doe_30_f";
     EvaluationSummary.name := lit "Jane Doe";
     EvaluationSummary.age := Some 30%Z;
     EvaluationSummary.sex := Some (lit "F");
     EvaluationSummary.measurement_count := 1;
     EvaluationSummary.updated_at := lit "2024-05-05T10:00:00Z" |}.

(** A store with the records of January and of June. *)
Definition shelf : store :=
  <[lit "jan_30_f.json" := doc (lit "Jan") (Some (lit "2024-01-01T00:00:00Z"))]>
  (<[lit "june_31_f.json" :=
       doc (lit "June") (Some (lit "2024-06-01T00:00:00Z"))]> ∅).

(** A store whose one file does not parse. *)
Definition torn : store := {[ lit "jane-doe_30_f.json" := Corrupt ]}.
End Sample.


(** The derived file name without its extension, as [get_eval_filename]
    composes it. *)
Definition eval_stem `{Unicode} (name : option str) (age : Z)
    (sex : option str) : str :=
  name_part name ++ lit "_" ++ int_str age ++ lit "_" ++ sex_part sex.

(** The file that [get_evaluation] and [delete_evaluation] address for the
    argument [filename]. *)
Definition filepath `{Unicode} (filename : str) : str :=
  sanitize_filename filename ++ lit ".json".


(** ** Proof steps *)

(** Two literal keys differ. *)
Ltac key_ne := let E := fresh in intros E; vm_compute in E; discriminate E.

(** The value of a literal key in the document of a write. *)
Ltac written_lookup :=
  unfold written, Evaluation.dict;
  repeat (rewrite lookup_insert_ne by key_ne);
  by rewrite lookup_insert_eq.
(** ** The sanitizer: shape of its result *)

Section Sanitizer.
Context `{Unicode}.

Lemma is_safe_spec c :
  Chr.is_safe c = true ↔
  ((97 ≤ c ≤ 122) ∨ (48 ≤ c ≤ 57) ∨ c = 45 ∨ c = 95)%N.
Proof.
  unfold Chr.is_safe, Chr.hyphen, Chr.underscore.
  rewrite !orb_true_iff, !andb_true_iff, !N.leb_le, !N.eqb_eq. tauto.
Qed.

Lemma safe_ascii c : Chr.is_safe c = true → Chr.is_ascii c = true.
Proof. rewrite is_safe_spec. unfold Chr.is_ascii. rewrite N.ltb_lt. lia. Qed.

Lemma safe_lower c : Chr.is_safe c = true → Chr.ascii_lower c = c.
Proof.
  rewrite is_safe_spec. unfold Chr.ascii_lower. intros Hc.
  destruct (andb _ _) eqn:E; [|done].
  apply andb_true_iff in E as [?%N.leb_le ?%N.leb_le]. lia.
Qed.

Lemma safe_not_space c : Chr.is_safe c = true → py_isspace c = false.
Proof.
  intros Hc. unfold py_isspace. rewrite (safe_ascii c Hc).
  apply is_safe_spec in Hc. unfold Chr.ascii_isspace.
  rewrite !orb_false_iff, !andb_false_iff, !N.leb_gt, N.eqb_neq. lia.
Qed.

Lemma sub_unsafe_safe s : Forall (λ c, Chr.is_safe c = true) (sub_unsafe s).
Proof.
  unfold sub_unsafe. induction s as [|c s IH]; simpl; constructor; [|done].
  by destruct (Chr.is_safe c) eqn:E.
Qed.

Lemma sub_hyphens_Forall (P : N → Prop) s :
  Forall P s → Forall P (sub_hyphens s).
Proof.
  induction 1 as [|c s Hc Hs IH]; [constructor|].
  simpl. destruct s as [|d s]; [by repeat constructor|].
  destruct (andb _ _); [done | by constructor].
Qed.

Lemma sub_hyphens_cons c d s :
  sub_hyphens (c :: d :: s) =
    if ((c =? Chr.hyphen) && (d =? Chr.hyphen))%N
    then sub_hyphens (d :: s) else c :: sub_hyphens (d :: s).
Proof. reflexivity. Qed.

Lemma sub_hyphens_head c s :
  ∃ t, sub_hyphens (c :: s) = c :: t.
Proof.
  revert c. induction s as [|d s IH]; intros c; [by eexists|].
  rewrite sub_hyphens_cons.
  destruct (andb _ _) eqn:E; [|by eexists].
  apply andb_true_iff in E as [->%N.eqb_eq ->%N.eqb_eq]. apply IH.
Qed.

Lemma sub_hyphens_no_run s : no_hyphen_run (sub_hyphens s).
Proof.
  induction s as [|c s IH]; [done|].
  destruct s as [|d s]; [done|].
  rewrite sub_hyphens_cons.
  destruct (andb _ _) eqn:E; [done|].
  destruct (sub_hyphens_head d s) as [t Ht]. rewrite Ht in IH |- *.
  split; [|done]. intros [-> ->]. by rewrite !N.eqb_refl in E.
Qed.

Lemma no_run_take n s : no_hyphen_run s → no_hyphen_run (take n s).
Proof.
  revert n. induction s as [|c s IH]; intros [|n] Hs; try done.
  destruct s as [|d s]; [by destruct n|]. destruct Hs as [Hcd Hs].
  specialize (IH n Hs). destruct n as [|n]; [done|]. by split.
Qed.

Lemma sub_hyphens_fixed s : no_hyphen_run s → sub_hyphens s = s.
Proof.
  induction s as [|c s IH]; [done|]. destruct s as [|d s]; [done|].
  intros [Hcd Hs].
  rewrite sub_hyphens_cons.
  destruct (andb _ _) eqn:E.
  - apply andb_true_iff in E as [?%N.eqb_eq ?%N.eqb_eq]. tauto.
  - by rewrite IH.
Qed.

Lemma sub_unsafe_fixed s :
  Forall (λ c, Chr.is_safe c = true) s → sub_unsafe s = s.
Proof.
  unfold sub_unsafe. induction 1 as [|c s Hc Hs IH]; [done|].
  simpl. by rewrite Hc, IH.
Qed.

Lemma py_lower_fixed s :
  Forall (λ c, Chr.is_safe c = true) s → py_lower s = s.
Proof.
  intros Hs. unfold py_lower.
  assert (forallb Chr.is_ascii s = true) as ->.
  { apply forallb_forall. intros c Hc%list_elem_of_In.
    apply safe_ascii. by eapply Forall_forall in Hs. }
  induction Hs as [|c s Hc Hs IH]; [done|].
  simpl. by rewrite (safe_lower c Hc), IH.
Qed.

Lemma py_rstrip_fixed s :
  Forall (λ c, py_isspace c = false) s → py_rstrip s = s.
Proof.
  induction 1 as [|c s Hc Hs IH]; [done|].
  simpl. rewrite IH, Hc. by destruct s.
Qed.

Lemma py_strip_fixed s :
  Forall (λ c, Chr.is_safe c = true) s → py_strip s = s.
Proof.
  intros Hs. unfold py_strip.
  assert (Forall (λ c, py_isspace c = false) s) as Hn.
  { eapply Forall_impl; [done|]. apply safe_not_space. }
  assert (py_lstrip s = s) as ->; [|by apply py_rstrip_fixed].
  destruct Hn as [|c s Hc _]; [done|]. simpl. by rewrite Hc.
Qed.

Lemma sanitize_safe name :
  Forall (λ c, Chr.is_safe c = true) (sanitize_filename name).
Proof.
  unfold sanitize_filename. apply Forall_take, sub_hyphens_Forall,
    sub_unsafe_safe.
Qed.

Lemma sanitize_no_run name : no_hyphen_run (sanitize_filename name).
Proof. apply no_run_take, sub_hyphens_no_run. Qed.

Lemma sanitize_length name : length (sanitize_filename name) ≤ 50.
Proof. unfold sanitize_filename. rewrite length_take. lia. Qed.

(** A text that already has the shape of a sanitized name is left as it
    is. *)
Lemma sanitize_fixed s :
  Forall (λ c, Chr.is_safe c = true) s → no_hyphen_run s → length s ≤ 50 →
  sanitize_filename s = s.
Proof.
  intros Hsafe Hrun Hlen. unfold sanitize_filename.
  rewrite (py_lower_fixed s Hsafe), (py_strip_fixed s Hsafe),
    (sub_unsafe_fixed s Hsafe), (sub_hyphens_fixed s Hrun).
  by apply take_ge.
Qed.

(** C8. The sanitizer is idempotent: sanitizing a sanitized text gives
    that text back, for every input string and whatever the
    interpreter's Unicode tables are. *)
Theorem sanitize_filename_idempotent (x : str) :
  sanitize_filename (sanitize_filename x) = sanitize_filename x.
Proof.
  apply sanitize_fixed;
    [apply sanitize_safe | apply sanitize_no_run | apply sanitize_length].
Qed.

(** C9. For every input string the sanitizer's result has at most 50
    code points, and each of them is a lower-case letter [a-z], a digit
    [0-9], the hyphen (45) or the underscore (95). *)
Theorem sanitize_filename_bounded_safe (x : str) :
  length (sanitize_filename x) ≤ 50 ∧
  ∀ c, c ∈ sanitize_filename x →
    ((97 ≤ c ≤ 122) ∨ (48 ≤ c ≤ 57) ∨ c = 45 ∨ c = 95)%N.
Proof.
  split; [apply sanitize_length|].
  intros c Hc. apply is_safe_spec.
  by eapply Forall_forall in Hc; [|apply sanitize_safe].
Qed.
End Sanitizer.

(** ** The derived file name: its name part and its sex part *)

Section FileNameParts.
Context `{Unicode}.

Lemma str_or_nonempty (s : option str) (d : str) : d ≠ [] → str_or s d ≠ [].
Proof. by destruct s as [[|c s]|]. Qed.

Lemma sanitize_unnamed : sanitize_filename (lit "unnamed") = lit "unnamed".
Proof. reflexivity. Qed.

(** A name made of one space is not falsy, so it is not replaced; the
    sanitizer then strips it to nothing. *)
Lemma name_part_space : name_part (Some (lit " ")) = [].
Proof. reflexivity. Qed.

Lemma sex_part_absent : sex_part None = lit "u".
Proof. reflexivity. Qed.

(** C7, amended. When the name is absent or is the empty string, the name
    part of the derived file name is the token [unnamed], for every age
    and sex. *)
Theorem name_part_absent_or_empty (age : Z) (sex : option str) :
  name_part None = lit "unnamed" ∧
  name_part (Some []) = lit "unnamed" ∧
  get_eval_filename None age sex =
    lit "unnamed" ++ lit "_" ++ int_str age ++ lit "_" ++ sex_part sex
      ++ lit ".json" ∧
  get_eval_filename (Some []) age sex =
    lit "unnamed" ++ lit "_" ++ int_str age ++ lit "_" ++ sex_part sex
      ++ lit ".json".
Proof. by repeat split. Qed.

(** C2, amended. When the sex is present and not empty, the sex part of
    the derived file name is its first code point, lower-cased; when the
    sex is absent or empty, the sex part is the one letter [u], the first
    code point of the fallback [unknown]. *)
Theorem sex_part_first_letter (name : option str) (age : Z) (c : N)
    (rest : str) :
  get_eval_filename name age (Some (c :: rest)) =
    name_part name ++ lit "_" ++ int_str age ++ lit "_" ++ py_lower [c]
      ++ lit ".json" ∧
  get_eval_filename name age None =
    name_part name ++ lit "_" ++ int_str age ++ lit "_" ++ lit "u"
      ++ lit ".json" ∧
  get_eval_filename name age (Some []) =
    name_part name ++ lit "_" ++ int_str age ++ lit "_" ++ lit "u"
      ++ lit ".json".
Proof. by repeat split. Qed.
End FileNameParts.

(** Runs of the code on ASCII inputs. *)
Section FileNameRuns.
Local Existing Instance ascii_only.

(** C7, as stated, fails: the name [" "] has an empty lower-cased,
    trimmed form, and the name part of its file name is empty, not
    [unnamed]; the file name of [(" ", 30, "M")] is [_30_m.json]. *)
Lemma name_part_blank_counterexample :
  py_strip (py_lower (lit " ")) = [] ∧
  name_part (Some (lit " ")) = [] ∧
  name_part (Some (lit " ")) ≠ lit "unnamed" ∧
  get_eval_filename (Some (lit " ")) 30 (Some (lit "M")) = lit "_30_m.json".
Proof. repeat split. discriminate. Qed.

(** C2, as stated, fails: with the sex absent the sex part is [u], not
    the whole token [unknown]; the file name of [("Jane", 30, None)] is
    [jane_30_u.json]. *)
Lemma sex_part_absent_counterexample :
  sex_part None = lit "u" ∧
  sex_part None ≠ lit "unknown" ∧
  get_eval_filename (Some (lit "Jane")) 30 None = lit "jane_30_u.json" ∧
  get_eval_filename (Some (lit "Jane")) 30 None ≠ lit "jane_30_unknown.json".
Proof. repeat split; discriminate. Qed.
End FileNameRuns.


(** ** The order on strings *)

Section StrOrder.
Implicit Types s t u : str.

Lemma str_ltb_irrefl s : str_ltb s s = false.
Proof.
  induction s as [|c s IH]; [done|]. simpl.
  by rewrite N.ltb_irrefl, N.eqb_refl, IH.
Qed.

Lemma str_ltb_asym s t : str_ltb s t = true → str_ltb t s = false.
Proof.
  revert t. induction s as [|c s IH]; intros [|d t]; simpl; try done.
  destruct (N.ltb_spec c d), (N.ltb_spec d c), (N.eqb_spec c d),
    (N.eqb_spec d c); simpl; try done; try lia.
  apply IH.
Qed.

(** [≥] is transitive. *)
Lemma str_geb_trans s t u :
  str_ltb s t = false → str_ltb t u = false → str_ltb s u = false.
Proof.
  revert t u. induction s as [|c s IH]; intros [|d t] [|e u]; simpl;
    try done.
  destruct (N.ltb_spec c d), (N.eqb_spec c d), (N.ltb_spec d e),
    (N.eqb_spec d e), (N.ltb_spec c e), (N.eqb_spec c e); simpl;
    try done; try lia.
  apply IH.
Qed.

(** The empty string is the least string. *)
Lemma str_ltb_nil_l s : str_ltb [] s = false → s = [].
Proof. by destruct s. Qed.
End StrOrder.

(** ** The listing *)

Section Listing.
Context `{Unicode} `{Pydantic}.
Implicit Types (dir : directory) (l : list EvaluationSummary.t).

Lemma scan_omap dir l :
  scan dir l = l ++ omap (λ entry, summary (stem entry.1) entry.2) dir.
Proof.
  revert l. induction dir as [|[name f] dir IH]; intros l; simpl.
  - by rewrite app_nil_r.
  - destruct (summary (stem name) f) as [s|]; rewrite IH; [|done].
    by rewrite <- app_assoc.
Qed.

Lemma glob_json_app dir1 dir2 :
  glob_json (dir1 ++ dir2) = glob_json dir1 ++ glob_json dir2.
Proof. apply List.filter_app. Qed.

Lemma insert_desc_perm x l : insert_desc x l ≡ₚ x :: l.
Proof.
  induction l as [|y l IH]; [done|]. simpl.
  destruct (str_ltb _ _); [|done]. rewrite IH. apply Permutation_swap.
Qed.

Lemma sort_perm l : sort_updated_at_desc l ≡ₚ l.
Proof.
  induction l as [|x l IH]; [done|]. simpl.
  by rewrite insert_desc_perm, IH.
Qed.

Lemma insert_desc_descending x l :
  descending l → descending (insert_desc x l).
Proof.
  unfold descending. induction 1 as [|y l Hl IH Hy]; simpl.
  - by repeat constructor.
  - destruct (str_ltb _ _) eqn:E.
    + constructor; [done|]. rewrite insert_desc_perm.
      constructor; [|done]. by apply str_ltb_asym.
    + constructor; [by constructor|]. constructor; [done|].
      eapply Forall_impl; [exact Hy|]. intros z Hz. simpl in Hz.
      by eapply str_geb_trans.
Qed.

Lemma sort_descending l : descending (sort_updated_at_desc l).
Proof.
  induction l as [|x l IH]; [constructor|].
  by apply insert_desc_descending.
Qed.

(** A listing in descending order that rearranges a list whose keys
    strictly decrease is that list. *)
Lemma descending_unique l l' :
  l ≡ₚ l' → descending l →
  StronglySorted
    (λ a b, str_ltb (EvaluationSummary.updated_at b)
                    (EvaluationSummary.updated_at a) = true) l' →
  l = l'.
Proof.
  intros Hp Hl Hl'. revert l Hp Hl.
  induction Hl' as [|x l' Hl' IH Hx]; intros l Hp Hl.
  - by apply Permutation_nil_r.
  - destruct l as [|y l]; [by apply Permutation_nil_cons in Hp|].
    apply StronglySorted_inv in Hl as [Hl Hy].
    assert (y = x) as ->.
    { assert (y ∈ x :: l') as [->|Hyl]%elem_of_cons;
        [rewrite <- Hp; left | done |].
      assert (x ∈ y :: l) as [->|Hxl]%elem_of_cons;
        [rewrite Hp; left | done |].
      rewrite Forall_forall in Hx, Hy.
      specialize (Hx y Hyl). specialize (Hy x Hxl). simpl in *. congruence. }
    f_equal. apply IH; [|done]. by apply Permutation_cons_inv in Hp.
Qed.

(** A file whose [try] body raises leaves no trace in the listing. *)
Lemma list_evaluations_skip dir1 dir2 name f :
  summary (stem name) f = None →
  list_evaluations (dir1 ++ (name, f) :: dir2) = list_evaluations (dir1 ++ dir2).
Proof.
  intros Hf. unfold list_evaluations. do 2 f_equal.
  rewrite !scan_omap, !glob_json_app. simpl.
  change (glob_json ((name, f) :: dir2))
    with (if endswith name (lit ".json")
          then (name, f) :: glob_json dir2 else glob_json dir2).
  destruct (endswith _ _); [|done].
  rewrite !omap_app. simpl. by rewrite Hf.
Qed.

Lemma summary_null_name file_stem data :
  data !! lit "person_name" = Some JNull →
  summary file_stem (Json (JDict data)) = None.
Proof. intros Hd. unfold summary, dict_get. by rewrite Hd. Qed.

Lemma elem_of_list_evaluations dir l s :
  list_evaluations dir = Ok l →
  s ∈ l ↔ ∃ name f, (name, f) ∈ dir ∧ endswith name (lit ".json") = true ∧
                    summary (stem name) f = Some s.
Proof.
  intros [= <-]. rewrite sort_perm, scan_omap. simpl.
  rewrite list_elem_of_omap. split.
  - intros [[name f] [Hin Hs]]. exists name, f.
    apply list_elem_of_In, List.filter_In in Hin as [Hin He].
    by rewrite list_elem_of_In.
  - intros (name & f & Hin & He & Hs). exists (name, f). split; [|done].
    apply list_elem_of_In, List.filter_In. by rewrite <- list_elem_of_In.
Qed.

(** The listing of a store, whatever the order of enumeration: its
    summaries are those of the [.json] files of the store. *)
Lemma list_evaluations_store (st : store) dir l s :
  enumerates dir st → list_evaluations dir = Ok l →
  s ∈ l ↔ ∃ name f, st !! name = Some f ∧ endswith name (lit ".json") = true ∧
                    summary (stem name) f = Some s.
Proof.
  intros Hdir Hl. rewrite (elem_of_list_evaluations dir l s Hl).
  unfold enumerates in Hdir.
  split; intros (name & f & Hin & He & Hs); exists name, f; (split; [|done]).
  - rewrite Hdir in Hin. by apply elem_of_map_to_list in Hin.
  - rewrite Hdir. by apply elem_of_map_to_list.
Qed.
End Listing.


(** ** Properties of the listing *)

Section ListingProperties.
Context `{Unicode} `{Pydantic}.
Implicit Types (dir : directory) (l : list EvaluationSummary.t).

Lemma summary_missing_updated_at file_stem data s :
  data !! lit "updated_at" = None →
  summary file_stem (Json (JDict data)) = Some s →
  EvaluationSummary.updated_at s = [].
Proof.
  intros Hd Hs. unfold summary, dict_get in Hs. rewrite Hd in Hs.
  apply bind_Some in Hs as (name & _ & Hs).
  apply bind_Some in Hs as (age & _ & Hs).
  apply bind_Some in Hs as (sex & _ & Hs).
  apply bind_Some in Hs as (n & _ & Hs).
  apply bind_Some in Hs as (u & [= <-] & [= <-]). done.
Qed.

(** C5. For every state of the directory, in whatever order its files are
    enumerated, the listing succeeds with summaries in descending order of
    [updated_at], compared as strings; a file without [updated_at] is
    summarized with the empty string, and a summary with the empty string
    is followed only by summaries with the empty string.  In particular,
    when the files give three summaries with [updated_at]
    [2024-01-01T00:00:00Z], [2024-06-01T00:00:00Z] and the empty string,
    the listing is: June, January, the empty one. *)
Theorem list_evaluations_order dir :
  ∃ l, list_evaluations dir = Ok l ∧
    descending l ∧
    (∀ file_stem data s,
       data !! lit "updated_at" = None →
       summary file_stem (Json (JDict data)) = Some s →
       EvaluationSummary.updated_at s = []) ∧
    (∀ l1 a l2,
       l = l1 ++ a :: l2 → EvaluationSummary.updated_at a = [] →
       Forall (λ b, EvaluationSummary.updated_at b = []) l2) ∧
    (∀ s1 s2 s3,
       scan (glob_json dir) [] ≡ₚ [s1; s2; s3] →
       EvaluationSummary.updated_at s1 = lit "2024-01-01T00:00:00Z" →
       EvaluationSummary.updated_at s2 = lit "2024-06-01T00:00:00Z" →
       EvaluationSummary.updated_at s3 = [] →
       l = [s2; s1; s3]).
Proof.
  eexists. split; [reflexivity|].
  split; [apply sort_descending|].
  split; [apply summary_missing_updated_at|]. split.
  - intros l1 a l2 Hl Ha.
    pose proof (sort_descending (scan (glob_json dir) [])) as Hd.
    rewrite Hl in Hd. apply StronglySorted_app_1_r in Hd.
    apply StronglySorted_inv in Hd as [_ Hd].
    eapply Forall_impl; [exact Hd|]. intros b Hb. simpl in Hb.
    rewrite Ha in Hb. by apply str_ltb_nil_l.
  - intros s1 s2 s3 Hp H1 H2 H3. apply descending_unique.
    + rewrite sort_perm, Hp. apply Permutation_swap.
    + apply sort_descending.
    + repeat constructor; rewrite ?H1, ?H2, ?H3; done.
Qed.

(** C6. The listing never fails.  For every state of the directory it
    returns a list that holds, with their multiplicity, the summaries of
    the [.json] files whose summary can be built, and only those; in
    particular every such file has its summary in the list.  A file that
    cannot be read or parsed has no summary, and the listing is what it
    would be with that file away. *)
Theorem list_evaluations_never_fails dir :
  ∃ l, list_evaluations dir = Ok l ∧
    l ≡ₚ omap (λ entry, summary (stem entry.1) entry.2) (glob_json dir) ∧
    (∀ name f s,
       (name, f) ∈ dir → endswith name (lit ".json") = true →
       summary (stem name) f = Some s → s ∈ l) ∧
    (∀ file_stem, summary file_stem Corrupt = None) ∧
    (∀ dir1 dir2 name,
       dir = dir1 ++ (name, Corrupt) :: dir2 →
       list_evaluations (dir1 ++ dir2) = Ok l).
Proof.
  eexists. split; [reflexivity|]. split; [|split; [|split]].
  - by rewrite sort_perm, scan_omap.
  - intros name f s Hin He Hs.
    eapply elem_of_list_evaluations; [reflexivity|]. by exists name, f.
  - done.
  - intros dir1 dir2 name ->. symmetry. by apply list_evaluations_skip.
Qed.

(** C10. A file that parses as a JSON object in which the key
    [person_name] is present with the value null has no summary: the
    validation of the field [name] fails and the failure is absorbed.  The
    listing succeeds and is what it would be with that file away, so the
    record is not listed, neither under the name [Unnamed] nor otherwise. *)
Theorem list_evaluations_null_name dir1 dir2 name data :
  data !! lit "person_name" = Some JNull →
  summary (stem name) (Json (JDict data)) = None ∧
  (∃ l, list_evaluations (dir1 ++ (name, Json (JDict data)) :: dir2) = Ok l ∧
        list_evaluations (dir1 ++ dir2) = Ok l).
Proof.
  intros Hd. pose proof (summary_null_name (stem name) data Hd) as Hs.
  split; [done|]. eexists. split; [reflexivity|].
  symmetry. by apply list_evaluations_skip.
Qed.
End ListingProperties.

(** ** Properties of the write *)

Section Saving.
Context `{Unicode} `{Pydantic}.
Implicit Types (st : store) (e : Evaluation.t).

Lemma save_evaluation_Ok st utcnow e r st' :
  save_evaluation st utcnow e = (Ok r, st') →
  ∃ age, Evaluation.person_age e = Some age ∧ age ≠ 0%Z ∧
    let filename :=
      get_eval_filename (Evaluation.person_name e) age (Evaluation.person_sex e)
    in
    plain_name filename = true ∧
    r = {| SaveResult.status := lit "saved"; SaveResult.filename := filename |} ∧
    st' = <[filename := Json (JDict (written utcnow e))]> st.
Proof.
  unfold save_evaluation.
  destruct (Evaluation.person_age e) as [[|age|age]|]; try done;
    (destruct (plain_name _) eqn:Hp; [|done]); intros [= <- <-];
    eexists; (split; [done|]); by repeat split.
Qed.

Lemma written_id utcnow e :
  written utcnow e !! lit "id" = Some (JStr (Evaluation.id e)).
Proof.
  unfold written, Evaluation.dict.
  rewrite lookup_insert_ne by discriminate. by rewrite lookup_insert_eq.
Qed.

(** C1. Let two records have the same name, age and sex (their [id]s may
    differ), and let the first be saved, with success.  Then saving the
    second succeeds with the same file name, and the directory is the
    first directory with one file of that name, whose content is the
    second record as [save_evaluation] writes it, [id] of the second
    record included; every other file is as it was.  Nothing of the first
    record is left: the state is the state reached by saving the second
    record alone.  Where no file of that name was there at first, the two
    writes add one file, not two. *)
Theorem save_same_triple_overwrites st utcnow1 utcnow2 e1 e2 r1 st1 :
  Evaluation.person_name e1 = Evaluation.person_name e2 →
  Evaluation.person_age e1 = Evaluation.person_age e2 →
  Evaluation.person_sex e1 = Evaluation.person_sex e2 →
  save_evaluation st utcnow1 e1 = (Ok r1, st1) →
  ∃ st2, save_evaluation st1 utcnow2 e2 = (Ok r1, st2) ∧
    st2 = <[SaveResult.filename r1 := Json (JDict (written utcnow2 e2))]> st ∧
    st2 !! SaveResult.filename r1 = Some (Json (JDict (written utcnow2 e2))) ∧
    written utcnow2 e2 !! lit "id" = Some (JStr (Evaluation.id e2)) ∧
    (∀ other, other ≠ SaveResult.filename r1 → st2 !! other = st !! other) ∧
    st2 = (save_evaluation st utcnow2 e2).2 ∧
    (st !! SaveResult.filename r1 = None → size st2 = S (size st)).
Proof.
  intros Hname Hage Hsex Hsave.
  apply save_evaluation_Ok in Hsave as (age & Ha & Hnz & Hp & -> & ->).
  simpl. unfold save_evaluation. rewrite <- Hage, <- Hname, <- Hsex, Ha.
  destruct age as [|age|age]; [done| |]; rewrite Hp; simpl;
    (eexists; split; [reflexivity|]);
    rewrite insert_insert_eq;
    (split; [done|]); (split; [by rewrite lookup_insert_eq|]);
    (split; [apply written_id|]);
    (split; [by intros other Ho; rewrite lookup_insert_ne|]);
    (split; [done|]); intros Hn; by rewrite map_size_insert_None.
Qed.

(** C4. When the age of the record is absent or zero, the write fails with
    status 400 and the detail [Age is required], and the directory is left
    as it was: no file is made, changed or removed. *)
Theorem save_without_age st utcnow e :
  Evaluation.person_age e = None ∨ Evaluation.person_age e = Some 0%Z →
  save_evaluation st utcnow e = (HTTPException 400 (lit "Age is required"), st).
Proof. unfold save_evaluation. by intros [-> | ->]. Qed.
End Saving.


(** ** Runs of the handlers on ASCII inputs *)

Section HandlerRuns.
Local Existing Instance ascii_only.
Local Existing Instance no_coercion.
Import Sample.

(** The letter [j] of the sanitized ["  Jane  Doe!!"]. *)
Lemma sanitize_filename_bounded_safe_witness :
  106%N ∈ sanitize_filename (lit "  Jane  Doe!!") ∧
  length (sanitize_filename (lit "  Jane  Doe!!")) ≤ 50 ∧
  ((97 ≤ 106 ≤ 122) ∨ (48 ≤ 106 ≤ 57) ∨ 106 = 45 ∨ 106 = 95)%N.
Proof.
  assert (106%N ∈ sanitize_filename (lit "  Jane  Doe!!")) as Hj
    by (vm_compute; left).
  split; [exact Hj|].
  destruct (sanitize_filename_bounded_safe (lit "  Jane  Doe!!")) as [Hl Hc].
  split; [exact Hl | exact (Hc 106%N Hj)].
Defined.

(** Jane Doe saved twice under two [id]s into the empty directory: one
    file, holding the second record. *)
Lemma save_same_triple_overwrites_witness :
  Evaluation.id jane ≠ Evaluation.id jane_again ∧
  ∃ st2,
    save_evaluation (save_evaluation ∅ (lit "2024-05-05T10:00:00") jane).2
      (lit "2024-05-05T11:00:00") jane_again
    = (Ok {| SaveResult.status := lit "saved";
             SaveResult.filename := lit "jane-doe_30_f.json" |}, st2) ∧
    st2 = {[ lit "jane-doe_30_f.json" :=
               Json (JDict (written (lit "2024-05-05T11:00:00") jane_again)) ]} ∧
    size st2 = 1.
Proof.
  split; [discriminate|].
  destruct (save_same_triple_overwrites ∅
              (lit "2024-05-05T10:00:00") (lit "2024-05-05T11:00:00")
              jane jane_again
              {| SaveResult.status := lit "saved";
                 SaveResult.filename := lit "jane-doe_30_f.json" |}
              (save_evaluation ∅ (lit "2024-05-05T10:00:00") jane).2
              eq_refl eq_refl eq_refl)
    as (st2 & Hsave & Hst & _ & _ & _ & _ & Hsize).
  { vm_compute. reflexivity. }
  exists st2. split; [exact Hsave|]. split; [exact Hst|].
  rewrite Hsize; [done|]. apply lookup_empty.
Defined.

(** A record with the age zero, against a directory that holds a file. *)
Lemma save_without_age_witness :
  Evaluation.person_age ageless = Some 0%Z ∧
  save_evaluation {[ lit "jane-doe_30_f.json" := Corrupt ]}
    (lit "2024-05-05T10:00:00") ageless
  = (HTTPException 400 (lit "Age is required"),
     {[ lit "jane-doe_30_f.json" := Corrupt ]}).
Proof.
  split; [reflexivity|]. apply save_without_age. right. reflexivity.
Defined.

(** The sample directory is listed as June, January, undated. *)
Lemma list_evaluations_order_witness :
  scan (glob_json dir) [] ≡ₚ [january; june; undated] ∧
  list_evaluations dir = Ok [june; january; undated].
Proof.
  assert (scan (glob_json dir) [] = [january; june; undated]) as Hscan
    by (vm_compute; reflexivity).
  split; [by rewrite Hscan|].
  destruct (list_evaluations_order dir) as (l & Hl & _ & _ & _ & Hex).
  rewrite Hl. f_equal. apply Hex; [by rewrite Hscan|done..].
Defined.

(** The sample directory has a file that does not parse; the listing
    holds January and is the listing of the directory without that file. *)
Lemma list_evaluations_never_fails_witness :
  ∃ l, list_evaluations dir = Ok l ∧ january ∈ l ∧
       list_evaluations
         ([(lit "jan_30_f.json",
            doc (lit "Jan") (Some (lit "2024-01-01T00:00:00Z")))]
          ++ tail (tail dir)) = Ok l.
Proof.
  destruct (list_evaluations_never_fails dir) as (l & Hl & _ & Hin & _ & Hskip).
  exists l. split; [exact Hl|]. split.
  - apply (Hin (lit "jan_30_f.json")
             (doc (lit "Jan") (Some (lit "2024-01-01T00:00:00Z")))).
    + left.
    + vm_compute. reflexivity.
    + vm_compute. reflexivity.
  - apply (Hskip _ _ (lit "broken.json")). reflexivity.
Defined.

(** The file that [save_evaluation] writes for a record without a name
    has [person_name] null; adding it to the sample directory leaves the
    listing as it is. *)
Lemma list_evaluations_null_name_witness :
  written (lit "2024-05-05T10:00:00") nameless !! lit "person_name"
    = Some JNull ∧
  list_evaluations
    (dir ++ [(lit "unnamed_41_m.json",
              Json (JDict (written (lit "2024-05-05T10:00:00") nameless)))])
  = list_evaluations dir.
Proof.
  assert (written (lit "2024-05-05T10:00:00") nameless !! lit "person_name"
          = Some JNull) as Hn by (vm_compute; reflexivity).
  split; [exact Hn|].
  destruct (list_evaluations_null_name dir [] (lit "unnamed_41_m.json") _ Hn)
    as (_ & l & -> & Hl).
  rewrite app_nil_r in Hl. by rewrite Hl.
Defined.

(** C3, at a concrete record.  Saving Jane Doe, 30, F into the empty
    directory answers with the file name [jane-doe_30_f.json], extension
    included.  Reading or deleting under exactly that name looks for
    [jane-doe_30_f-json.json] and answers 404, although the file just
    written is there and is found under the name [jane-doe_30_f]. *)
Theorem save_then_get_by_returned_name :
  (save_evaluation ∅ (lit "2024-05-05T10:00:00") jane).1
    = Ok {| SaveResult.status := lit "saved";
            SaveResult.filename := lit "jane-doe_30_f.json" |} ∧
  sanitize_filename (lit "jane-doe_30_f.json") ++ lit ".json"
    = lit "jane-doe_30_f-json.json" ∧
  get_evaluation (save_evaluation ∅ (lit "2024-05-05T10:00:00") jane).2
    (lit "jane-doe_30_f.json")
    = HTTPException 404 (lit "Evaluation not found") ∧
  (delete_evaluation (save_evaluation ∅ (lit "2024-05-05T10:00:00") jane).2
     (lit "jane-doe_30_f.json")).1
    = HTTPException 404 (lit "Evaluation not found") ∧
  get_evaluation (save_evaluation ∅ (lit "2024-05-05T10:00:00") jane).2
    (lit "jane-doe_30_f")
    = Ok (JDict (written (lit "2024-05-05T10:00:00") jane)).
Proof. repeat split; vm_compute; reflexivity. Qed.

(** The same happens to a name without its extension once it is longer
    than 50 code points: reading truncates what it is given.  The record
    of [long_name] is written to a file whose stem has 55 code points, and
    reading under that stem answers 404. *)
Example get_by_long_stem :
  (save_evaluation ∅ (lit "2024-05-05T10:00:00") long_name).1
    = Ok {| SaveResult.status := lit "saved";
            SaveResult.filename := repeat 97%N 50 ++ lit "_30_f.json" |} ∧
  get_evaluation (save_evaluation ∅ (lit "2024-05-05T10:00:00") long_name).2
    (repeat 97%N 50 ++ lit "_30_f")
    = HTTPException 404 (lit "Evaluation not found").
Proof. split; vm_compute; reflexivity. Qed.
End HandlerRuns.


(** * Further properties of the storage layer *)

(** ** The sanitizer as a normal form *)

Section SanitizerNormalForm.
Context `{Unicode}.

Lemma sanitize_fixed_inv (s : str) :
  sanitize_filename s = s →
  Forall (λ c, Chr.is_safe c = true) s ∧ no_hyphen_run s ∧ length s ≤ 50.
Proof.
  intros <-. split; [apply sanitize_safe|].
  split; [apply sanitize_no_run | apply sanitize_length].
Qed.

(** X1. The texts that the sanitizer leaves unchanged are exactly the texts of
    at most 50 code points, all in [[a-z0-9\-_]], in which no hyphen
    follows a hyphen. *)
Theorem sanitize_filename_fixed_iff (s : str) :
  sanitize_filename s = s ↔
  Forall (λ c, Chr.is_safe c = true) s ∧ no_hyphen_run s ∧ length s ≤ 50.
Proof.
  split; [apply sanitize_fixed_inv|].
  intros (Hsafe & Hrun & Hlen). by apply sanitize_fixed.
Qed.

Lemma py_lower_ascii s :
  forallb Chr.is_ascii s = true → py_lower s = map Chr.ascii_lower s.
Proof. intros Hs. unfold py_lower. by rewrite Hs. Qed.

(** X2. Two ASCII texts that differ only in the case of their letters have the
    same sanitized form, so reading or deleting under either addresses the
    same file. *)
Theorem sanitize_filename_case_insensitive (s t : str) :
  forallb Chr.is_ascii s = true → forallb Chr.is_ascii t = true →
  map Chr.ascii_lower s = map Chr.ascii_lower t →
  sanitize_filename s = sanitize_filename t ∧ filepath s = filepath t.
Proof.
  intros Hs Ht Hst.
  assert (sanitize_filename s = sanitize_filename t) as Heq.
  { unfold sanitize_filename.
    by rewrite (py_lower_ascii s Hs), (py_lower_ascii t Ht), Hst. }
  split; [done|]. unfold filepath. by rewrite Heq.
Qed.

Lemma safe_plain c :
  Chr.is_safe c = true → negb ((c =? Chr.slash) || (c =? Chr.nul))%N = true.
Proof.
  rewrite is_safe_spec. unfold Chr.slash, Chr.nul. intros Hc.
  apply negb_true_iff, orb_false_iff. rewrite !N.eqb_neq. lia.
Qed.

Lemma plain_name_safe s :
  Forall (λ c, Chr.is_safe c = true) s → plain_name s = true.
Proof.
  intros Hs. apply forallb_forall. intros c Hc%list_elem_of_In.
  apply safe_plain. by eapply Forall_forall in Hs.
Qed.

Lemma plain_name_app s t :
  plain_name (s ++ t) = plain_name s && plain_name t.
Proof. apply forallb_app. Qed.

(** X3. Whatever text is given to [get_evaluation] or [delete_evaluation], the
    file they address lies in the data directory itself: its name has no
    path separator, no NUL and no dot other than the one of [.json], and
    has at most 55 code points. *)
Theorem filepath_confined (filename : str) :
  plain_name (filepath filename) = true ∧
  length (filepath filename) ≤ 55 ∧
  (∀ c, c ∈ sanitize_filename filename → c ≠ 46%N) ∧
  filepath filename = sanitize_filename filename ++ lit ".json".
Proof.
  unfold filepath. split; [|split; [|split; [|done]]].
  - rewrite plain_name_app, plain_name_safe by apply sanitize_safe. done.
  - rewrite length_app. pose proof (sanitize_length filename). simpl. lia.
  - intros c Hc ->. pose proof (sanitize_safe filename) as Hs.
    rewrite Forall_forall in Hs. by specialize (Hs _ Hc).
Qed.

Lemma filepath_sanitize (filename : str) :
  filepath (sanitize_filename filename) = filepath filename.
Proof.
  unfold filepath. f_equal. apply sanitize_fixed;
    [apply sanitize_safe | apply sanitize_no_run | apply sanitize_length].
Qed.
End SanitizerNormalForm.


(** ** Reading and deleting *)

Section ReadDelete.
Context `{Unicode}.
Implicit Types (st : store) (filename : str).

Lemma get_evaluation_filepath st filename :
  get_evaluation st filename =
    match st !! filepath filename with
    | None => HTTPException 404 (lit "Evaluation not found")
    | Some Corrupt => Unhandled
    | Some (Json data) => Ok data
    end.
Proof. reflexivity. Qed.

Lemma delete_evaluation_filepath st filename :
  delete_evaluation st filename =
    match st !! filepath filename with
    | None => (HTTPException 404 (lit "Evaluation not found"), st)
    | Some _ => (Ok (lit "deleted"), delete (filepath filename) st)
    end.
Proof. reflexivity. Qed.

(** X4. Reading and deleting normalise their argument: a text and its
    sanitized form address the same file, so both calls behave alike on
    the two. *)
Theorem get_delete_normalise st filename :
  get_evaluation st (sanitize_filename filename) = get_evaluation st filename ∧
  delete_evaluation st (sanitize_filename filename)
    = delete_evaluation st filename.
Proof.
  rewrite !get_evaluation_filepath, !delete_evaluation_filepath.
  by rewrite filepath_sanitize.
Qed.

(** X5. Deleting where no file is addressed answers 404 and leaves the
    directory as it is.  Deleting an addressed file succeeds, whatever
    the file holds; afterwards that file is gone, every other file is as
    before, there is one file less, and reading or deleting under the
    same name answers 404. *)
Theorem delete_evaluation_spec st filename :
  (st !! filepath filename = None →
   delete_evaluation st filename
     = (HTTPException 404 (lit "Evaluation not found"), st)) ∧
  (∀ f, st !! filepath filename = Some f →
     ∃ st', delete_evaluation st filename = (Ok (lit "deleted"), st') ∧
       st' !! filepath filename = None ∧
       (∀ other, other ≠ filepath filename → st' !! other = st !! other) ∧
       size st = S (size st') ∧
       get_evaluation st' filename
         = HTTPException 404 (lit "Evaluation not found") ∧
       delete_evaluation st' filename
         = (HTTPException 404 (lit "Evaluation not found"), st')).
Proof.
  split.
  - intros Hn. by rewrite delete_evaluation_filepath, Hn.
  - intros f Hf. exists (delete (filepath filename) st).
    rewrite get_evaluation_filepath, !delete_evaluation_filepath, Hf.
    rewrite lookup_delete_eq. repeat split.
    + intros other Ho. by rewrite lookup_delete_ne.
    + rewrite <- (insert_id st (filepath filename) f Hf) at 1.
      rewrite <- insert_delete_eq.
      apply map_size_insert_None, lookup_delete_eq.
Qed.

(** X6. A file that does not parse: the listing passes over it, reading it
    lets the exception of the parser escape (no 404), and deleting it
    succeeds. *)
Theorem corrupt_file_handling `{Pydantic} st filename (dir1 dir2 : directory) :
  st !! filepath filename = Some Corrupt →
  get_evaluation st filename = Unhandled ∧
  delete_evaluation st filename
    = (Ok (lit "deleted"), delete (filepath filename) st) ∧
  list_evaluations (dir1 ++ (filepath filename, Corrupt) :: dir2)
    = list_evaluations (dir1 ++ dir2).
Proof.
  intros Hc. rewrite get_evaluation_filepath, delete_evaluation_filepath, Hc.
  repeat split. by apply list_evaluations_skip.
Qed.
End ReadDelete.

(** ** The shape of the derived file name *)

Section FileNameShape.
Context `{Unicode}.

Lemma endswith_app (s suffix : str) : endswith (s ++ suffix) suffix = true.
Proof.
  unfold endswith. apply bool_decide_eq_true.
  rewrite length_app, Nat.add_sub. by rewrite drop_app_length.
Qed.

Lemma rfind_dot_app (s t : str) :
  rfind_dot t = None → rfind_dot (s ++ 46%N :: t) = Some (length s).
Proof.
  intros Ht. induction s as [|c s IH]; simpl.
  - by rewrite Ht.
  - by rewrite IH.
Qed.

(** [Path.stem] takes the extension [.json] off a name that has something
    in front of it. *)
Lemma stem_app_json (s : str) : s ≠ [] → stem (s ++ lit ".json") = s.
Proof.
  intros Hs. unfold stem.
  change (lit ".json") with (46%N :: lit "json").
  rewrite rfind_dot_app by done.
  assert (0 < length s) by (destruct s; [done | simpl; lia]).
  rewrite length_app. simpl length.
  replace (0 <? length s) with true by (symmetry; apply Nat.ltb_lt; lia).
  replace (length s <? length s + 5 - 1) with true
    by (symmetry; apply Nat.ltb_lt; lia).
  simpl. by rewrite take_app_length.
Qed.

Lemma get_eval_filename_stem name age sex :
  get_eval_filename name age sex = eval_stem name age sex ++ lit ".json".
Proof.
  unfold get_eval_filename, eval_stem. by rewrite <- !app_assoc.
Qed.

Lemma eval_stem_nonempty name age sex : eval_stem name age sex ≠ [].
Proof. unfold eval_stem. by destruct (name_part name). Qed.

Lemma stem_get_eval_filename name age sex :
  stem (get_eval_filename name age sex) = eval_stem name age sex.
Proof.
  rewrite get_eval_filename_stem. apply stem_app_json, eval_stem_nonempty.
Qed.

End FileNameShape.


(** ** The stem of a written file and the sanitizer *)

Section StemAndSanitizer.
Context `{Unicode}.

Lemma uint_str_digits d : Forall (λ c, (48 ≤ c ≤ 57)%N) (uint_str d).
Proof. induction d; simpl; constructor; try done; lia. Qed.

Lemma int_str_safe z : Forall (λ c, Chr.is_safe c = true) (int_str z).
Proof.
  assert (∀ d, Forall (λ c, Chr.is_safe c = true) (uint_str d)) as Hd.
  { intros d. eapply Forall_impl; [apply uint_str_digits|].
    intros c Hc. simpl in Hc. apply is_safe_spec. lia. }
  unfold int_str. destruct (Z.to_int z); [apply Hd|].
  constructor; [done | apply Hd].
Qed.

Lemma no_run_no_hyphen s : Forall (λ c, c ≠ Chr.hyphen) s → no_hyphen_run s.
Proof.
  induction 1 as [|c s Hc Hs IH]; [done|].
  destruct s as [|d s]; [done|]. split; [|done]. by intros [? _].
Qed.

Lemma int_str_no_run z : no_hyphen_run (int_str z).
Proof.
  assert (∀ d, Forall (λ c, c ≠ Chr.hyphen) (uint_str d)) as Hd.
  { intros d. eapply Forall_impl; [apply uint_str_digits|].
    unfold Chr.hyphen. intros c Hc. simpl in Hc. lia. }
  unfold int_str. destruct (Z.to_int z) as [d|d].
  - apply no_run_no_hyphen, Hd.
  - specialize (Hd d). pose proof (no_run_no_hyphen _ Hd) as Hr.
    destruct (uint_str d) as [|c s]; [done|]. split; [|done].
    intros [_ ->]. by apply Forall_cons_1 in Hd as [? _].
Qed.

Lemma int_str_no_underscore z : 95%N ∉ int_str z.
Proof.
  assert (∀ d, 95%N ∉ uint_str d) as Hd.
  { intros d Hin. pose proof (uint_str_digits d) as Hf.
    rewrite Forall_forall in Hf. specialize (Hf _ Hin). simpl in Hf. lia. }
  unfold int_str. destruct (Z.to_int z) as [d|d]; [apply Hd|].
  intros [?|?]%elem_of_cons; [done | by eapply Hd].
Qed.

(** Around a code point that is no hyphen, the two sides are free of
    hyphen runs independently. *)
Lemma no_run_app_sep (a b : str) c :
  c ≠ Chr.hyphen →
  no_hyphen_run (a ++ c :: b) ↔ no_hyphen_run a ∧ no_hyphen_run b.
Proof.
  intros Hc. induction a as [|x a IH].
  - simpl. destruct b as [|d b]; [tauto|]. split; [tauto|].
    intros [_ Hb]. split; [|done]. by intros [? _].
  - destruct a as [|y a].
    + simpl in *. split.
      * intros [_ Hb]. tauto.
      * intros [_ Hb]. split; [by intros [_ ?] | tauto].
    + change (no_hyphen_run ((x :: y :: a) ++ c :: b))
        with (¬ (x = Chr.hyphen ∧ y = Chr.hyphen)
              ∧ no_hyphen_run ((y :: a) ++ c :: b)).
      change (no_hyphen_run (x :: y :: a))
        with (¬ (x = Chr.hyphen ∧ y = Chr.hyphen) ∧ no_hyphen_run (y :: a)).
      tauto.
Qed.

Lemma eval_stem_sep name age sex :
  eval_stem name age sex
    = name_part name ++ 95%N :: (int_str age ++ 95%N :: sex_part sex).
Proof. reflexivity. Qed.

Lemma eval_stem_fixed name age sex :
  sanitize_filename (eval_stem name age sex) = eval_stem name age sex ↔
  length (eval_stem name age sex) ≤ 50 ∧
  sanitize_filename (sex_part sex) = sex_part sex.
Proof.
  assert (95%N ≠ Chr.hyphen) as Hu by done.
  assert (Chr.is_safe 95 = true) as Hs95 by done.
  split.
  - intros (Hsafe & Hrun & Hlen)%sanitize_fixed_inv. split; [done|].
    rewrite eval_stem_sep in Hsafe, Hrun, Hlen.
    apply Forall_app in Hsafe as [_ [_ Hsafe]%Forall_cons_1].
    apply Forall_app in Hsafe as [_ [_ Hsafe]%Forall_cons_1].
    apply no_run_app_sep in Hrun as [_ Hrun]; [|done].
    apply no_run_app_sep in Hrun as [_ Hrun]; [|done].
    apply sanitize_fixed; [done..|].
    rewrite !length_app in Hlen. simpl in Hlen.
    rewrite !length_app in Hlen. simpl in Hlen. lia.
  - intros [Hlen (Hsafe & Hrun & _)%sanitize_fixed_inv].
    apply sanitize_fixed; [| |done]; rewrite eval_stem_sep.
    + apply Forall_app. split; [apply sanitize_safe|].
      constructor; [done|]. apply Forall_app.
      split; [apply int_str_safe|]. by constructor.
    + apply no_run_app_sep; [done|]. split; [apply sanitize_no_run|].
      apply no_run_app_sep; [done|]. split; [apply int_str_no_run | done].
Qed.

(** X8. The stem of a derived file name survives the sanitizer exactly when
    it has at most 50 code points and its sex part survives it. *)
Theorem eval_stem_fixed_iff name age sex :
  sanitize_filename (eval_stem name age sex) = eval_stem name age sex ↔
  length (eval_stem name age sex) ≤ 50 ∧
  sanitize_filename (sex_part sex) = sex_part sex.
Proof. apply eval_stem_fixed. Qed.

Lemma alnum_lower_safe c :
  Chr.is_alnum c = true →
  Chr.is_ascii c = true ∧ Chr.is_safe (Chr.ascii_lower c) = true.
Proof.
  unfold Chr.is_alnum, Chr.is_ascii, Chr.ascii_lower.
  rewrite !orb_true_iff, !andb_true_iff, !N.leb_le, N.ltb_lt. intros Hc.
  split; [lia|]. apply is_safe_spec.
  destruct (andb _ _) eqn:E.
  - apply andb_true_iff in E. rewrite !N.leb_le in E. lia.
  - apply andb_false_iff in E. rewrite !N.leb_gt in E. lia.
Qed.

(** The sex part is one safe code point when the sex is absent, empty, or
    begins with an ASCII letter or digit. *)
Lemma sex_part_plain_cases sex :
  match sex with
  | Some (c :: _) => Chr.is_alnum c = true
  | _ => True
  end →
  ∃ c, sex_part sex = [c] ∧ Chr.is_safe c = true.
Proof.
  destruct sex as [[|c rest]|]; intros Hc;
    [by exists 117%N | | by exists 117%N].
  apply alnum_lower_safe in Hc as [Ha Hs].
  exists (Chr.ascii_lower c). split; [|done].
  unfold sex_part, py_lower. simpl. by rewrite Ha.
Qed.

(** X9. For a sex that is absent, empty, or begins with an ASCII letter or
    digit, the stem survives the sanitizer exactly when it has at most 50
    code points. *)
Theorem eval_stem_fixed_ascii name age sex :
  match sex with
  | Some (c :: _) => Chr.is_alnum c = true
  | _ => True
  end →
  sanitize_filename (eval_stem name age sex) = eval_stem name age sex ↔
  length (eval_stem name age sex) ≤ 50.
Proof.
  intros (c & Hc & Hs)%sex_part_plain_cases.
  rewrite eval_stem_fixed. split; [tauto|]. intros Hlen. split; [done|].
  rewrite Hc. apply sanitize_fixed; [by constructor | done | simpl; lia].
Qed.
End StemAndSanitizer.


(** ** The write, and what follows a write *)

Section AfterSave.
Context `{Unicode} `{Pydantic}.
Implicit Types (st : store) (e : Evaluation.t).



(** X11. After a successful write, reading under the stem of the returned name
    gives the document just written, provided that stem survives the
    sanitizer; the document carries the [created_at] of the caller and
    the time of the write as [updated_at]. *)
Theorem save_then_get_by_stem st utcnow e r st' :
  save_evaluation st utcnow e = (Ok r, st') →
  sanitize_filename (stem (SaveResult.filename r)) = stem (SaveResult.filename r) →
  get_evaluation st' (stem (SaveResult.filename r))
    = Ok (JDict (written utcnow e)) ∧
  written utcnow e !! lit "created_at" = Some (JStr (Evaluation.created_at e)) ∧
  written utcnow e !! lit "updated_at" = Some (JStr (utcnow ++ lit "Z")).
Proof.
  intros (age & Ha & Hnz & Hp & -> & ->)%save_evaluation_Ok. simpl.
  pose proof (get_eval_filename_stem (Evaluation.person_name e) age
                (Evaluation.person_sex e)) as Hfn.
  rewrite stem_get_eval_filename. intros Hfix. split; [|split].
  - rewrite get_evaluation_filepath. unfold filepath. rewrite Hfix, <- Hfn.
    by rewrite lookup_insert_eq.
  - unfold written, Evaluation.dict.
    do 2 (rewrite lookup_insert_ne by discriminate).
    by rewrite lookup_insert_eq.
  - unfold written. by rewrite lookup_insert_eq.
Qed.

(** X12. Under the same proviso, deleting under the stem of the returned name
    removes the file just written; when no file of that name was there
    before the write, the directory is back to what it was. *)
Theorem save_then_delete_by_stem st utcnow e r st' :
  save_evaluation st utcnow e = (Ok r, st') →
  sanitize_filename (stem (SaveResult.filename r)) = stem (SaveResult.filename r) →
  delete_evaluation st' (stem (SaveResult.filename r))
    = (Ok (lit "deleted"), delete (SaveResult.filename r) st) ∧
  (st !! SaveResult.filename r = None →
   delete_evaluation st' (stem (SaveResult.filename r)) = (Ok (lit "deleted"), st)).
Proof.
  intros (age & Ha & Hnz & Hp & -> & ->)%save_evaluation_Ok. simpl.
  pose proof (get_eval_filename_stem (Evaluation.person_name e) age
                (Evaluation.person_sex e)) as Hfn.
  rewrite stem_get_eval_filename. intros Hfix.
  assert (filepath (eval_stem (Evaluation.person_name e) age
                      (Evaluation.person_sex e))
          = get_eval_filename (Evaluation.person_name e) age
              (Evaluation.person_sex e)) as Hpath.
  { unfold filepath. by rewrite Hfix, <- Hfn. }
  rewrite delete_evaluation_filepath, Hpath, lookup_insert_eq, delete_insert_eq.
  split; [done|]. intros Hn. by rewrite delete_id.
Qed.
End AfterSave.


(** ** A written record in the listing *)

Section SaveAndList.
Context `{Unicode} `{Pydantic}.
Implicit Types (st : store) (e : Evaluation.t).

Lemma written_person_name utcnow e :
  written utcnow e !! lit "person_name"
    = Some (Evaluation.opt_str (Evaluation.person_name e)).
Proof. written_lookup. Qed.

Lemma written_person_age utcnow e :
  written utcnow e !! lit "person_age"
    = Some (Evaluation.opt_int (Evaluation.person_age e)).
Proof. written_lookup. Qed.

Lemma written_person_sex utcnow e :
  written utcnow e !! lit "person_sex"
    = Some (Evaluation.opt_str (Evaluation.person_sex e)).
Proof. written_lookup. Qed.

Lemma written_measurements utcnow e :
  written utcnow e !! lit "measurements"
    = Some (JDict (Evaluation.measurements e)).
Proof. written_lookup. Qed.

Lemma written_updated_at utcnow e :
  written utcnow e !! lit "updated_at" = Some (JStr (utcnow ++ lit "Z")).
Proof. written_lookup. Qed.

(** The summary of a file written by [save_evaluation]: none when the
    record has no name, and otherwise the name, age, sex, number of
    measurements and time of the write. *)
Lemma summary_written file_stem utcnow e :
  summary file_stem (Json (JDict (written utcnow e))) =
    match Evaluation.person_name e with
    | Some name =>
        Some {| EvaluationSummary.filename := file_stem;
                EvaluationSummary.name := name;
                EvaluationSummary.age := Evaluation.person_age e;
                EvaluationSummary.sex := Evaluation.person_sex e;
                EvaluationSummary.measurement_count :=
                  size (Evaluation.measurements e);
                EvaluationSummary.updated_at := utcnow ++ lit "Z" |}
    | None => None
    end.
Proof.
  unfold summary, dict_get.
  rewrite written_person_name, written_person_age, written_person_sex,
    written_measurements, written_updated_at.
  destruct (Evaluation.person_name e) as [name|]; [|done].
  by destruct (Evaluation.person_age e), (Evaluation.person_sex e).
Qed.

(** X13. After the successful write of a record that has a name, every listing
    of the directory, in whatever order the files are enumerated, holds
    the summary of that record: the stem of the returned file name, the
    name, age and sex of the record, the number of its measurements and
    the time of the write. *)
Theorem save_then_list st utcnow e r st' name (dir : directory) :
  save_evaluation st utcnow e = (Ok r, st') →
  Evaluation.person_name e = Some name →
  enumerates dir st' →
  ∃ l, list_evaluations dir = Ok l ∧
    {| EvaluationSummary.filename := stem (SaveResult.filename r);
       EvaluationSummary.name := name;
       EvaluationSummary.age := Evaluation.person_age e;
       EvaluationSummary.sex := Evaluation.person_sex e;
       EvaluationSummary.measurement_count := size (Evaluation.measurements e);
       EvaluationSummary.updated_at := utcnow ++ lit "Z" |} ∈ l.
Proof.
  intros (age & Ha & Hnz & Hp & -> & ->)%save_evaluation_Ok Hname Hdir.
  eexists. split; [reflexivity|]. simpl.
  eapply list_evaluations_store; [exact Hdir | reflexivity |].
  eexists _, _. split; [apply lookup_insert_eq|].
  split; [rewrite get_eval_filename_stem; apply endswith_app|].
  by rewrite summary_written, Hname.
Qed.

(** X14. A record without a name is written all the same, and its file is
    there; but no listing shows it: every summary of a listing made after
    the write comes from another file, one that was there before. *)
Theorem save_nameless_unlisted st utcnow e r st' (dir : directory) l :
  save_evaluation st utcnow e = (Ok r, st') →
  Evaluation.person_name e = None →
  enumerates dir st' →
  list_evaluations dir = Ok l →
  st' !! SaveResult.filename r = Some (Json (JDict (written utcnow e))) ∧
  ∀ s, s ∈ l →
    ∃ name f, name ≠ SaveResult.filename r ∧ st !! name = Some f ∧
      endswith name (lit ".json") = true ∧ summary (stem name) f = Some s.
Proof.
  intros (age & Ha & Hnz & Hp & -> & ->)%save_evaluation_Ok Hname Hdir Hl.
  simpl. split; [apply lookup_insert_eq|]. intros s Hs.
  apply (list_evaluations_store _ _ _ _ Hdir Hl) in Hs
    as (name & f & Hf & He & Hsum).
  destruct (decide (name = get_eval_filename (Evaluation.person_name e) age
                            (Evaluation.person_sex e))) as [->|Hne].
  - rewrite lookup_insert_eq in Hf. injection Hf as <-.
    by rewrite summary_written, Hname in Hsum.
  - rewrite lookup_insert_ne in Hf by done. by exists name, f.
Qed.
End SaveAndList.


(** ** Ties and the order of enumeration *)

Section ListingOrder.
Context `{Unicode} `{Pydantic}.
Implicit Types (dir : directory) (l : list EvaluationSummary.t).

Lemma filter_insert_desc (k : str) x l :
  filter (λ s, EvaluationSummary.updated_at s = k) (insert_desc x l)
  = filter (λ s, EvaluationSummary.updated_at s = k) (x :: l).
Proof.
  induction l as [|y l IH]; [done|]. simpl.
  destruct (str_ltb _ _) eqn:E; [|done].
  rewrite (filter_cons _ y), IH, !(filter_cons _ x), (filter_cons _ y).
  repeat case_decide; try done.
  assert (EvaluationSummary.updated_at x = EvaluationSummary.updated_at y)
    as Hxy by congruence.
  by rewrite Hxy, str_ltb_irrefl in E.
Qed.

Lemma filter_sort (k : str) l :
  filter (λ s, EvaluationSummary.updated_at s = k) (sort_updated_at_desc l)
  = filter (λ s, EvaluationSummary.updated_at s = k) l.
Proof.
  induction l as [|x l IH]; [done|]. simpl.
  by rewrite filter_insert_desc, !filter_cons, IH.
Qed.

(** X15. The sort is stable: the summaries that share one value of
    [updated_at] stand in the listing in the order in which their files
    were enumerated. *)
Theorem list_evaluations_stable dir (k : str) :
  ∃ l, list_evaluations dir = Ok l ∧
    filter (λ s, EvaluationSummary.updated_at s = k) l
    = filter (λ s, EvaluationSummary.updated_at s = k)
        (omap (λ entry, summary (stem entry.1) entry.2) (glob_json dir)).
Proof.
  eexists. split; [reflexivity|]. by rewrite filter_sort, scan_omap.
Qed.

Lemma str_ltb_total (s t : str) :
  str_ltb s t = false → str_ltb t s = false → s = t.
Proof.
  revert t. induction s as [|c s IH]; intros [|d t]; simpl; try done.
  destruct (N.ltb_spec c d), (N.ltb_spec d c), (N.eqb_spec c d),
    (N.eqb_spec d c); simpl; try done; try lia.
  intros Hst Hts. subst. f_equal. by apply IH.
Qed.

Lemma glob_json_Permutation dir dir' :
  dir ≡ₚ dir' → glob_json dir ≡ₚ glob_json dir'.
Proof.
  unfold glob_json. induction 1 as [|[n f] d d' _ IH|[n f] [n' f'] d|];
    simpl; [done| | |by etrans].
  - destruct (endswith _ _); [by constructor | done].
  - destruct (endswith n _), (endswith n' _); try done. apply Permutation_swap.
Qed.

(** A descending list whose keys are pairwise distinct strictly
    descends. *)
Lemma descending_strict l :
  descending l → NoDup (EvaluationSummary.updated_at <$> l) →
  StronglySorted
    (λ a b, str_ltb (EvaluationSummary.updated_at b)
                    (EvaluationSummary.updated_at a) = true) l.
Proof.
  unfold descending. induction 1 as [|x l Hl IH Hx]; [constructor|].
  rewrite fmap_cons. intros [Hnx Hnd]%NoDup_cons. constructor; [by apply IH|].
  rewrite Forall_forall in Hx |- *. intros b Hb. specialize (Hx b Hb).
  simpl in Hx.
  destruct (str_ltb (EvaluationSummary.updated_at b)
              (EvaluationSummary.updated_at x)) eqn:E; [done|].
  destruct Hnx. rewrite (str_ltb_total _ _ Hx E).
  by apply list_elem_of_fmap_2.
Qed.

(** X16. When the summaries of a directory have pairwise distinct values of
    [updated_at], the listing does not depend on the order in which the
    files are enumerated: two enumerations of one store give one and the
    same listing. *)
Theorem list_evaluations_enumeration (st : store) dir dir' :
  enumerates dir st → enumerates dir' st →
  NoDup (EvaluationSummary.updated_at <$> scan (glob_json dir) []) →
  list_evaluations dir' = list_evaluations dir.
Proof.
  unfold enumerates. intros Hd Hd' Hnd.
  assert (scan (glob_json dir') [] ≡ₚ scan (glob_json dir) []) as Hp.
  { rewrite !scan_omap. simpl. apply omap_Permutation, glob_json_Permutation.
    by rewrite Hd, Hd'. }
  unfold list_evaluations. f_equal. apply descending_unique.
  - by rewrite !sort_perm.
  - apply sort_descending.
  - apply descending_strict; [apply sort_descending|].
    by rewrite sort_perm.
Qed.
End ListingOrder.


(** ** When two records share a file *)

Section Collisions.
Context `{Unicode}.

Lemma uint_str_inj d d' : uint_str d = uint_str d' → d = d'.
Proof.
  revert d'. induction d; intros []; simpl; try discriminate; try done;
    intros [= Hd]; f_equal; auto.
Qed.

Lemma int_str_inj z z' : int_str z = int_str z' → z = z'.
Proof.
  unfold int_str. intros Hz.
  rewrite <- (DecimalZ.of_to z), <- (DecimalZ.of_to z'). f_equal.
  destruct (Z.to_int z) as [d|d], (Z.to_int z') as [d'|d'].
  - f_equal. by apply uint_str_inj.
  - pose proof (uint_str_digits d) as Hd. rewrite Hz in Hd.
    apply Forall_cons_1 in Hd as [Hd _]. unfold Chr.hyphen in Hd. lia.
  - pose proof (uint_str_digits d') as Hd. rewrite <- Hz in Hd.
    apply Forall_cons_1 in Hd as [Hd _]. unfold Chr.hyphen in Hd. lia.
  - injection Hz as Hz. f_equal. by apply uint_str_inj.
Qed.

(** A text is split in one way only at the last occurrence of a code
    point. *)
Lemma app_sep_inj (x : N) (a a' b b' : str) :
  x ∉ b → x ∉ b' → a ++ x :: b = a' ++ x :: b' → a = a' ∧ b = b'.
Proof.
  intros Hb Hb'. revert a'. induction a as [|y a IH]; intros [|y' a']; simpl.
  - by intros [= ->].
  - intros [= <- ->]. destruct Hb. apply elem_of_app. right. left.
  - intros [= -> <-]. destruct Hb'. apply elem_of_app. right. left.
  - intros [= -> Ht]. destruct (IH _ Ht) as [-> ->]. done.
Qed.

(** X17. Two triples whose sex parts have one code point each (as they have
    for a sex that is absent, empty, or begins with an ASCII code point)
    are written to the same file exactly when their sanitized names,
    their ages and their sex parts agree.  In particular two ages never
    share a file. *)
Theorem get_eval_filename_collision name1 age1 sex1 name2 age2 sex2 :
  length (sex_part sex1) = 1 → length (sex_part sex2) = 1 →
  get_eval_filename name1 age1 sex1 = get_eval_filename name2 age2 sex2 ↔
  name_part name1 = name_part name2 ∧ age1 = age2 ∧
  sex_part sex1 = sex_part sex2.
Proof.
  intros H1 H2. split.
  - rewrite !get_eval_filename_stem. intros Hs%app_inv_tail.
    unfold eval_stem in Hs.
    destruct (sex_part sex1) as [|c1 [|]]; try done.
    destruct (sex_part sex2) as [|c2 [|]]; try done.
    change (lit "_") with [95%N] in Hs.
    rewrite !app_assoc in Hs.
    apply app_inj_tail in Hs as [Hs ->].
    apply app_inj_tail in Hs as [Hs _].
    rewrite <- !app_assoc in Hs. simpl in Hs.
    apply app_sep_inj in Hs as [Hn Ha]; [|apply int_str_no_underscore..].
    by apply int_str_inj in Ha.
  - intros (Hn & -> & Hs). unfold get_eval_filename. by rewrite Hn, Hs.
Qed.
End Collisions.

(** ** What the listing takes from a file *)

Section Summaries.
Context `{Unicode} `{Pydantic}.
Implicit Types (dir : directory) (l : list EvaluationSummary.t).

Lemma summary_Some file_stem f s :
  summary file_stem f = Some s →
  ∃ data, f = Json (JDict data) ∧
    EvaluationSummary.filename s = file_stem ∧
    validate_str (dict_get data (lit "person_name") (JStr (lit "Unnamed")))
      = Some (EvaluationSummary.name s) ∧
    validate_optional_int (dict_get data (lit "person_age") JNull)
      = Some (EvaluationSummary.age s) ∧
    validate_optional_str (dict_get data (lit "person_sex") JNull)
      = Some (EvaluationSummary.sex s) ∧
    py_len (dict_get data (lit "measurements") (JDict ∅))
      = Some (EvaluationSummary.measurement_count s) ∧
    validate_str (dict_get data (lit "updated_at") (JStr []))
      = Some (EvaluationSummary.updated_at s).
Proof.
  destruct f as [|[| | | | | |data]]; try done. unfold summary. intros Hs.
  apply bind_Some in Hs as (name & Hname & Hs).
  apply bind_Some in Hs as (age & Hage & Hs).
  apply bind_Some in Hs as (sex & Hsex & Hs).
  apply bind_Some in Hs as (n & Hn & Hs).
  apply bind_Some in Hs as (u & Hu & [= <-]). by exists data.
Qed.

(** X18. A document that lacks a key is summarized with the default of that
    key: the name [Unnamed], no age, no sex, zero measurements, the empty
    [updated_at].  A JSON object with none of the five keys is always
    listed, with all the defaults. *)
Theorem summary_defaults file_stem data :
  (∀ s, summary file_stem (Json (JDict data)) = Some s →
     (data !! lit "person_name" = None →
      EvaluationSummary.name s = lit "Unnamed") ∧
     (data !! lit "person_age" = None → EvaluationSummary.age s = None) ∧
     (data !! lit "person_sex" = None → EvaluationSummary.sex s = None) ∧
     (data !! lit "measurements" = None →
      EvaluationSummary.measurement_count s = 0) ∧
     (data !! lit "updated_at" = None → EvaluationSummary.updated_at s = [])) ∧
  (data !! lit "person_name" = None → data !! lit "person_age" = None →
   data !! lit "person_sex" = None → data !! lit "measurements" = None →
   data !! lit "updated_at" = None →
   summary file_stem (Json (JDict data))
     = Some {| EvaluationSummary.filename := file_stem;
               EvaluationSummary.name := lit "Unnamed";
               EvaluationSummary.age := None;
               EvaluationSummary.sex := None;
               EvaluationSummary.measurement_count := 0;
               EvaluationSummary.updated_at := [] |}).
Proof.
  split.
  - intros s (d & [= <-] & _ & Hname & Hage & Hsex & Hn & Hu)%summary_Some.
    unfold dict_get in *. repeat split; intros Hk.
    + rewrite Hk in Hname. by injection Hname.
    + rewrite Hk in Hage. by injection Hage.
    + rewrite Hk in Hsex. by injection Hsex.
    + rewrite Hk in Hn. by injection Hn.
    + rewrite Hk in Hu. by injection Hu.
  - intros H1 H2 H3 H4 H5. unfold summary, dict_get.
    by rewrite H1, H2, H3, H4, H5.
Qed.

(** X19. Files that parse and are passed over all the same: a document that
    is no JSON object, an object whose [updated_at] is null, and an
    object whose [measurements] has no length (null, a number, a truth
    value).  The listing is what it would be with such a file away. *)
Theorem list_evaluations_skips_documents dir1 dir2 name (j : json) :
  (∀ data, j ≠ JDict data) ∨
  (∃ data, j = JDict data ∧
     (data !! lit "updated_at" = Some JNull ∨
      ∃ v, data !! lit "measurements" = Some v ∧ py_len v = None)) →
  summary (stem name) (Json j) = None ∧
  list_evaluations (dir1 ++ (name, Json j) :: dir2)
    = list_evaluations (dir1 ++ dir2).
Proof.
  intros Hj.
  assert (summary (stem name) (Json j) = None) as Hs.
  { destruct (summary (stem name) (Json j)) as [s|] eqn:Hs; [|done].
    apply summary_Some in Hs as (d & [= ->] & _ & _ & _ & _ & Hn & Hu).
    unfold dict_get in *.
    destruct Hj as [Hj|(d' & [= <-] & [Hk|(v & Hk & Hv)])].
    - by destruct (Hj d).
    - by rewrite Hk in Hu.
    - rewrite Hk in Hn. congruence. }
  split; [done|]. by apply list_evaluations_skip.
Qed.

Lemma length_omap_le {A B} (f : A → option B) (xs : list A) :
  length (omap f xs) ≤ length xs.
Proof.
  induction xs as [|x xs IH]; [done|]. simpl.
  destruct (f x); simpl; [apply le_n_S, IH | apply Nat.le_le_succ_r, IH].
Qed.

Lemma length_glob_json_le dir : length (glob_json dir) ≤ length dir.
Proof.
  unfold glob_json. induction dir as [|x dir IH]; simpl; [done|].
  destruct (endswith _ _); simpl; lia.
Qed.

(** X20. The listing makes nothing up: it has at most as many summaries as the
    directory has files, and each summary comes from a file of the
    directory whose name ends in [.json] and which holds a JSON object;
    the [filename] of the summary is the stem of that name. *)
Theorem list_evaluations_provenance dir l :
  list_evaluations dir = Ok l →
  length l ≤ length dir ∧
  ∀ s, s ∈ l →
    ∃ name data, (name, Json (JDict data)) ∈ dir ∧
      endswith name (lit ".json") = true ∧
      EvaluationSummary.filename s = stem name.
Proof.
  intros Hl. split.
  - injection Hl as <-. rewrite sort_perm, scan_omap. simpl.
    etrans; [apply length_omap_le | apply length_glob_json_le].
  - intros s Hs. apply (elem_of_list_evaluations _ _ _ Hl) in Hs
      as (name & f & Hin & He & Hsum).
    apply summary_Some in Hsum as (data & -> & Hfn & _).
    by exists name, data.
Qed.
End Summaries.


(** ** Reading under the name that the write returns *)

Section ReturnedName.
Context `{Unicode} `{Pydantic}.
Implicit Types (st : store) (e : Evaluation.t).

(** Joining two texts loses at most one hyphen to the collapsing of
    runs. *)
Lemma sub_hyphens_app_length (a b : str) :
  length (sub_hyphens a) + length (sub_hyphens b)
  ≤ length (sub_hyphens (a ++ b)) + 1.
Proof.
  induction a as [|c a IH]; [simpl; lia|].
  destruct a as [|d a].
  - simpl app. destruct b as [|d b]; [simpl; lia|].
    rewrite sub_hyphens_cons. destruct (andb _ _); cbn [length sub_hyphens]; lia.
  - change ((c :: d :: a) ++ b) with (c :: d :: (a ++ b)).
    rewrite !sub_hyphens_cons. cbn [app] in IH.
    destruct (andb _ _); cbn [length]; lia.
Qed.

Lemma py_lower_fixed_ascii s :
  Forall (λ c, Chr.is_ascii c = true ∧ Chr.ascii_lower c = c) s →
  py_lower s = s.
Proof.
  intros Hs. unfold py_lower.
  assert (forallb Chr.is_ascii s = true) as ->.
  { apply forallb_forall. intros c Hc%list_elem_of_In.
    rewrite Forall_forall in Hs. by apply Hs. }
  induction Hs as [|c s [_ Hc] Hs IH]; [done|]. simpl. by rewrite Hc, IH.
Qed.

Lemma py_strip_fixed_nospace s :
  Forall (λ c, py_isspace c = false) s → py_strip s = s.
Proof.
  intros Hn. unfold py_strip.
  assert (py_lstrip s = s) as ->; [|by apply py_rstrip_fixed].
  destruct Hn as [|c s Hc _]; [done|]. simpl. by rewrite Hc.
Qed.

(** The sanitized form of a safe text followed by [.json] has at least
    four code points more than the text, or 50. *)
Lemma sanitize_with_extension_length s :
  Forall (λ c, Chr.is_safe c = true) s → no_hyphen_run s →
  Nat.min 50 (length s + 4) ≤ length (sanitize_filename (s ++ lit ".json")).
Proof.
  intros Hsafe Hrun. unfold sanitize_filename.
  rewrite py_lower_fixed_ascii, py_strip_fixed_nospace.
  - unfold sub_unsafe. rewrite map_app. fold (sub_unsafe s).
    rewrite (sub_unsafe_fixed s Hsafe), length_take.
    pose proof (sub_hyphens_app_length s
                  (map (λ c, if Chr.is_safe c then c else Chr.hyphen)
                     (lit ".json"))) as Hl.
    rewrite (sub_hyphens_fixed s Hrun) in Hl.
    change (length (sub_hyphens (map _ (lit ".json")))) with 5 in Hl. lia.
  - apply Forall_app. split; [|by repeat constructor].
    eapply Forall_impl; [exact Hsafe|]. apply safe_not_space.
  - apply Forall_app. split; [|by repeat constructor].
    eapply Forall_impl; [exact Hsafe|]. intros c Hc.
    split; [by apply safe_ascii | by apply safe_lower].
Qed.

(** X21. The name that a successful write returns carries the extension, and
    reading and deleting append the extension once more to its sanitized
    form.  Whenever the stem of the written file has fewer than 50 code
    points, they address another file than the one written; where that
    other file does not exist, both answer 404 right after the write. *)
Theorem save_returned_name_misses st utcnow e r st' :
  save_evaluation st utcnow e = (Ok r, st') →
  length (stem (SaveResult.filename r)) < 50 →
  filepath (SaveResult.filename r) ≠ SaveResult.filename r ∧
  (st !! filepath (SaveResult.filename r) = None →
   get_evaluation st' (SaveResult.filename r)
     = HTTPException 404 (lit "Evaluation not found") ∧
   delete_evaluation st' (SaveResult.filename r)
     = (HTTPException 404 (lit "Evaluation not found"), st')).
Proof.
  intros (age & Ha & Hnz & Hp & -> & ->)%save_evaluation_Ok. simpl.
  rewrite stem_get_eval_filename. intros Hlen.
  assert (filepath (get_eval_filename (Evaluation.person_name e) age
                      (Evaluation.person_sex e))
          ≠ get_eval_filename (Evaluation.person_name e) age
              (Evaluation.person_sex e)) as Hne.
  { rewrite get_eval_filename_stem. unfold filepath. intros Heq%app_inv_tail.
    pose proof (sanitize_safe (eval_stem (Evaluation.person_name e) age
                  (Evaluation.person_sex e) ++ lit ".json")) as Hsafe.
    pose proof (sanitize_no_run (eval_stem (Evaluation.person_name e) age
                  (Evaluation.person_sex e) ++ lit ".json")) as Hrun.
    rewrite Heq in Hsafe, Hrun.
    pose proof (sanitize_with_extension_length _ Hsafe Hrun) as Hl.
    rewrite Heq in Hl. lia. }
  split; [done|]. intros Hn.
  rewrite get_evaluation_filepath, delete_evaluation_filepath.
  by rewrite lookup_insert_ne, Hn.
Qed.
End ReturnedName.


(** ** Runs on ASCII inputs *)

Section FurtherRuns.
Local Existing Instance ascii_only.
Local Existing Instance no_coercion.
Import Sample.

(** [Jane-Doe] and [jANE-dOE] address one file. *)
Lemma sanitize_filename_case_insensitive_witness :
  map Chr.ascii_lower (lit "Jane-Doe") = map Chr.ascii_lower (lit "jANE-dOE") ∧
  sanitize_filename (lit "Jane-Doe") = sanitize_filename (lit "jANE-dOE") ∧
  filepath (lit "Jane-Doe") = filepath (lit "jANE-dOE").
Proof.
  split; [reflexivity|].
  apply (sanitize_filename_case_insensitive (lit "Jane-Doe") (lit "jANE-dOE"));
    reflexivity.
Defined.

(** A name that tries to leave the directory addresses
    [-etc-passwd.json] inside it. *)
Lemma filepath_confined_witness :
  filepath (lit "../../etc/passwd") = lit "-etc-passwd.json" ∧
  plain_name (filepath (lit "../../etc/passwd")) = true ∧
  45%N ≠ 46%N.
Proof.
  destruct (filepath_confined (lit "../../etc/passwd")) as (Hp & _ & Hc & _).
  split; [vm_compute; reflexivity|]. split; [exact Hp|].
  apply Hc. vm_compute. left.
Defined.

(** Deleting a file that does not parse, under a name in capitals. *)
Lemma delete_evaluation_spec_witness :
  ∃ st', delete_evaluation torn (lit "Jane-Doe_30_F") = (Ok (lit "deleted"), st') ∧
    get_evaluation st' (lit "Jane-Doe_30_F")
      = HTTPException 404 (lit "Evaluation not found").
Proof.
  destruct (delete_evaluation_spec torn (lit "Jane-Doe_30_F")) as [_ Hd].
  destruct (Hd Corrupt) as (st' & Hdel & _ & _ & _ & Hget & _).
  { vm_compute. reflexivity. }
  by exists st'.
Defined.

Lemma corrupt_file_handling_witness :
  torn !! filepath (lit "Jane-Doe_30_F") = Some Corrupt ∧
  get_evaluation torn (lit "Jane-Doe_30_F") = Unhandled.
Proof.
  assert (torn !! filepath (lit "Jane-Doe_30_F") = Some Corrupt) as Hc
    by (vm_compute; reflexivity).
  split; [exact Hc|].
  by destruct (corrupt_file_handling _ _ [] [] Hc) as [Hget _].
Defined.

(** The stem [jane-doe_30_f] has 13 code points and survives the
    sanitizer. *)
Lemma eval_stem_fixed_ascii_witness :
  Chr.is_alnum 70 = true ∧
  sanitize_filename (eval_stem (Some (lit "Jane Doe")) 30 (Some (lit "F")))
    = eval_stem (Some (lit "Jane Doe")) 30 (Some (lit "F")).
Proof.
  split; [reflexivity|].
  apply (eval_stem_fixed_ascii (Some (lit "Jane Doe")) 30 (Some (lit "F")));
    [reflexivity|]. vm_compute. lia.
Defined.


Lemma save_then_get_by_stem_witness :
  get_evaluation (save_evaluation ∅ (lit "2024-05-05T10:00:00") jane).2
    (lit "jane-doe_30_f")
  = Ok (JDict (written (lit "2024-05-05T10:00:00") jane)).
Proof.
  destruct (save_then_get_by_stem ∅ (lit "2024-05-05T10:00:00") jane
              {| SaveResult.status := lit "saved";
                 SaveResult.filename := lit "jane-doe_30_f.json" |}
              (save_evaluation ∅ (lit "2024-05-05T10:00:00") jane).2)
    as [Hget _]; [vm_compute; reflexivity..|].
  exact Hget.
Defined.

Lemma save_then_delete_by_stem_witness :
  delete_evaluation (save_evaluation ∅ (lit "2024-05-05T10:00:00") jane).2
    (lit "jane-doe_30_f")
  = (Ok (lit "deleted"), ∅).
Proof.
  destruct (save_then_delete_by_stem ∅ (lit "2024-05-05T10:00:00") jane
              {| SaveResult.status := lit "saved";
                 SaveResult.filename := lit "jane-doe_30_f.json" |}
              (save_evaluation ∅ (lit "2024-05-05T10:00:00") jane).2)
    as [_ Hdel]; [vm_compute; reflexivity..|].
  apply Hdel. apply lookup_empty.
Defined.

Lemma save_then_list_witness :
  ∃ l, list_evaluations
         (map_to_list (save_evaluation shelf (lit "2024-05-05T10:00:00") jane).2)
       = Ok l ∧ jane_row ∈ l.
Proof.
  apply (save_then_list shelf (lit "2024-05-05T10:00:00") jane
           {| SaveResult.status := lit "saved";
              SaveResult.filename := lit "jane-doe_30_f.json" |}
           (save_evaluation shelf (lit "2024-05-05T10:00:00") jane).2
           (lit "Jane Doe")).
  - vm_compute. reflexivity.
  - reflexivity.
  - unfold enumerates. reflexivity.
Defined.

Lemma save_nameless_unlisted_witness :
  (save_evaluation (save_evaluation ∅ (lit "2024-05-05T10:00:00") jane).2
     (lit "2024-05-05T11:00:00") nameless).2 !! lit "unnamed_41_m.json"
    = Some (Json (JDict (written (lit "2024-05-05T11:00:00") nameless))) ∧
  ∃ name f, name ≠ lit "unnamed_41_m.json" ∧
    (save_evaluation ∅ (lit "2024-05-05T10:00:00") jane).2 !! name = Some f ∧
    endswith name (lit ".json") = true ∧ summary (stem name) f = Some jane_row.
Proof.
  destruct (save_nameless_unlisted
              (save_evaluation ∅ (lit "2024-05-05T10:00:00") jane).2
              (lit "2024-05-05T11:00:00") nameless
              {| SaveResult.status := lit "saved";
                 SaveResult.filename := lit "unnamed_41_m.json" |}
              (save_evaluation
                 (save_evaluation ∅ (lit "2024-05-05T10:00:00") jane).2
                 (lit "2024-05-05T11:00:00") nameless).2
              (map_to_list
                 (save_evaluation
                    (save_evaluation ∅ (lit "2024-05-05T10:00:00") jane).2
                    (lit "2024-05-05T11:00:00") nameless).2)
              [jane_row]) as [Hfile Hl].
  - vm_compute. reflexivity.
  - reflexivity.
  - unfold enumerates. reflexivity.
  - vm_compute. reflexivity.
  - split; [exact Hfile|]. apply (Hl jane_row). left.
Defined.

(** The two records of [shelf], enumerated forwards and backwards. *)
Lemma list_evaluations_enumeration_witness :
  list_evaluations (reverse (map_to_list shelf))
  = list_evaluations (map_to_list shelf).
Proof.
  apply (list_evaluations_enumeration shelf).
  - unfold enumerates. reflexivity.
  - unfold enumerates. apply reverse_Permutation.
  - apply (bool_decide_unpack _). vm_compute. exact I.
Defined.

(** Jane Doe, 30, F and jane-doe, 30, female share a file. *)
Lemma get_eval_filename_collision_witness :
  length (sex_part (Some (lit "F"))) = 1 ∧
  length (sex_part (Some (lit "female"))) = 1 ∧
  get_eval_filename (Some (lit "Jane Doe")) 30 (Some (lit "F"))
  = get_eval_filename (Some (lit "jane-doe")) 30 (Some (lit "female")).
Proof.
  split; [reflexivity|]. split; [reflexivity|].
  apply get_eval_filename_collision; [reflexivity..|].
  repeat split; vm_compute; reflexivity.
Defined.

(** A JSON object with one foreign key is listed with the defaults. *)
Lemma summary_defaults_witness :
  summary (lit "x") (Json (JDict {[ lit "foo" := JInt 1 ]}))
  = Some (row (lit "x") (lit "Unnamed") []).
Proof.
  destruct (summary_defaults (lit "x") {[ lit "foo" := JInt 1 ]}) as [_ Hd].
  apply Hd; vm_compute; reflexivity.
Defined.

(** A file that holds the JSON list [[]] is passed over. *)
Lemma list_evaluations_skips_documents_witness :
  list_evaluations (dir ++ [(lit "list.json", Json (JList []))])
  = list_evaluations dir.
Proof.
  destruct (list_evaluations_skips_documents dir [] (lit "list.json") (JList []))
    as [_ Hl].
  - left. intros data. discriminate.
  - rewrite Hl. by rewrite app_nil_r.
Defined.

Lemma list_evaluations_provenance_witness :
  length [june; january; undated] ≤ length dir ∧
  ∃ name data, (name, Json (JDict data)) ∈ dir ∧
    endswith name (lit ".json") = true ∧
    EvaluationSummary.filename june = stem name.
Proof.
  destruct (list_evaluations_provenance dir [june; january; undated])
    as [Hlen Hin]; [vm_compute; reflexivity|].
  split; [exact Hlen|]. apply (Hin june). left.
Defined.

Lemma save_returned_name_misses_witness :
  filepath (lit "jane-doe_30_f.json") = lit "jane-doe_30_f-json.json" ∧
  get_evaluation (save_evaluation ∅ (lit "2024-05-05T10:00:00") jane).2
    (lit "jane-doe_30_f.json")
  = HTTPException 404 (lit "Evaluation not found").
Proof.
  split; [vm_compute; reflexivity|].
  destruct (save_returned_name_misses ∅ (lit "2024-05-05T10:00:00") jane
              {| SaveResult.status := lit "saved";
                 SaveResult.filename := lit "jane-doe_30_f.json" |}
              (save_evaluation ∅ (lit "2024-05-05T10:00:00") jane).2)
    as [_ Hmiss]; [vm_compute; reflexivity | vm_compute; lia |].
  destruct Hmiss as [Hget _]; [apply lookup_empty | exact Hget].
Defined.
End FurtherRuns.
